(** * honeymail: the SMTP honeypot session, listener and JSON controller

    A shallow embedding of [smtpd/server.go] (listener [Start], session
    [handleTCPConnection]) and of the API controller [SimpleController.JSON],
    with the properties of the specification stated over it.

    Conventions.
    - A Go [[]byte] is a [list ascii]; a Go [string] is a [string].
    - A Go [error] value is an [option error]; [None] is [nil].
    - A Go [int] is a [Z] wrapped to 64 bits by [int_wrap].
    - Network input is what the peer sends, as plain bytes; the outcome of a
      TLS handshake and the bytes the peer then sends inside the TLS channel
      are given by the environment ([TLSAttempt]).
    - [writeData] calls are recorded in order in the connection ([writes]). *)

From stdpp Require Import base gmap strings list.
From Stdlib Require Import String Ascii ZArith Lia Bool List DecimalString.
Import ListNotations.
Open Scope string_scope.
Open Scope list_scope.

(** ** Go basics *)

Definition bytes := list ascii.

Definition error := string.

Definition int_wrap (z : Z) : Z := ((z + 2 ^ 63) mod 2 ^ 64 - 2 ^ 63)%Z.

Definition CR : ascii := "013"%char.
Definition LF : ascii := "010"%char.
Definition DOT : ascii := "."%char.

Definition CRLF : string := String CR (String LF EmptyString).

(** [[]byte(s)] *)
Definition bytes_of (s : string) : bytes := list_ascii_of_string s.

(** [string(b)] *)
Definition string_of (b : bytes) : string := string_of_list_ascii b.

(** [fmt.Sprintf("%d", n)] for a non-negative [n] *)
Definition decimal (n : N) : string := NilZero.string_of_uint (N.to_uint n).

(** ** net/textproto: the two reads the session performs

    [Reader.ReadLine] and [Reader.ReadDotBytes] of Go's standard library, over
    the unread input of the buffered reader. Both return the input left. *)

Module Textproto.

(** [bufio.Reader.ReadSlice('\n')]: the bytes before the first line feed, and
    what follows it when there is one. *)
Fixpoint splitLF (inp : bytes) : bytes * option bytes :=
  match inp with
  | [] => ([], None)
  | c :: rest =>
      if Ascii.eqb c LF then ([], Some rest)
      else let '(l, r) := splitLF rest in (c :: l, r)
  end.

(** [bufio.Reader.ReadLine] drops the line feed and one carriage return
    before it. *)
Definition dropCR (l : bytes) : bytes :=
  match rev l with
  | c :: l' => if Ascii.eqb c CR then rev l' else l
  | [] => l
  end.

(** [ReadLine]: at end of input, the empty line and [io.EOF]; input that
    ends without a line end is returned whole, with no error. *)
Definition ReadLine (inp : bytes) : string * option error * bytes :=
  match inp with
  | [] => ("", Some "EOF", [])
  | _ :: _ =>
      match splitLF inp with
      | (l, Some rest) => (string_of (dropCR l), None, rest)
      | (l, None) => (string_of l, None, [])
      end
  end.

(** [p] put before what a read gives. *)
Definition prepend (p : bytes) (r : option (bytes * bytes)) : option (bytes * bytes) :=
  match r with
  | Some (out, rest) => Some (p ++ out, rest)
  | None => None
  end.

(** The states of [dotReader.Read]. *)
Inductive dotState :=
| stateBeginLine | stateDot | stateDotCR | stateCR | stateData | stateEOF.

Definition emit (c : ascii) (r : option (bytes * bytes)) : option (bytes * bytes) :=
  match r with
  | Some (out, rest) => Some (c :: out, rest)
  | None => None
  end.

(** [dotReader.Read] run to its end ([io.ReadAll]): the decoded bytes and the
    input left after the end marker, or [None] when the input ends first
    ([io.ErrUnexpectedEOF]). Where the Go code unreads a byte after a lone
    carriage return, the byte is handled here as [stateData] handles it. *)
Fixpoint dotRead (st : dotState) (inp : bytes) {struct inp} : option (bytes * bytes) :=
  match st, inp with
  | stateEOF, _ => Some ([], inp)
  | _, [] => None
  | _, c :: rest =>
      let data :=
        if Ascii.eqb c CR then dotRead stateCR rest
        else if Ascii.eqb c LF then emit c (dotRead stateBeginLine rest)
        else emit c (dotRead stateData rest) in
      match st with
      | stateBeginLine =>
          if Ascii.eqb c DOT then dotRead stateDot rest
          else if Ascii.eqb c CR then dotRead stateCR rest
          else emit c (dotRead stateData rest)
      | stateDot =>
          if Ascii.eqb c CR then dotRead stateDotCR rest
          else if Ascii.eqb c LF then Some ([], rest)
          else emit c (dotRead stateData rest)
      | stateDotCR =>
          if Ascii.eqb c LF then Some ([], rest)
          else emit CR data
      | stateCR =>
          if Ascii.eqb c LF then emit c (dotRead stateBeginLine rest)
          else emit CR data
      | stateData => data
      | stateEOF => Some ([], inp)
      end
  end.

(** [ReadDotBytes]: the decoded body, the error, and the input left. *)
Definition ReadDotBytes (inp : bytes) : bytes * option error * bytes :=
  match dotRead stateBeginLine inp with
  | Some (body, rest) => (body, None, rest)
  | None => ([], Some "unexpected EOF", [])
  end.

(** What a conforming client puts on the wire for a body given as lines
    (RFC 5321, 4.5.2): a line that starts with a dot gets one more, every
    line ends in CRLF, and a lone dot line ends the body. *)
Definition stuff (line : bytes) : bytes :=
  match line with
  | c :: _ => if Ascii.eqb c DOT then DOT :: line else line
  | [] => line
  end.

Definition dotEncode (lines : list bytes) : bytes :=
  concat (map (fun l => stuff l ++ [CR; LF]) lines) ++ [DOT; CR; LF].

(** The lines as [ReadDotBytes] returns them: each ended by a line feed. *)
Definition unlinesLF (lines : list bytes) : bytes :=
  concat (map (fun l => l ++ [LF]) lines).

(** The lines with the line ends the client sent. *)
Definition unlinesCRLF (lines : list bytes) : bytes :=
  concat (map (fun l => l ++ [CR; LF]) lines).

Definition plain (line : bytes) : Prop :=
  Forall (fun c => c <> CR /\ c <> LF) line.

End Textproto.

(** ** package envelope *)

(** [mail.Address] of Go's net/mail. *)
Record Address := { Name : string; Addr : string }.

(** Modelled from the spec: the [Envelope] struct of package envelope, which is
    not among the sources. The fields are those of section 3 that the session
    reads or writes; [received_at] and [geo] are set elsewhere and left out. *)
Record Envelope := {
  Id : string;
  RemoteAddress : string;
  From : option Address;
  To : option Address;
  Forwards : list Address;
  Message : bytes;
  SecurelyDelivered : bool
}.

Module envelope.

(** Modelled from the spec: [envelope.NewEnvelope], not among the sources. A
    fresh envelope has its id and the remote address and nothing else. *)
Definition NewEnvelope (id : string) (clientId : string) : Envelope :=
  {| Id := id; RemoteAddress := clientId; From := None; To := None;
     Forwards := []; Message := []; SecurelyDelivered := false |}.

(** Modelled from the spec: [Envelope.AddForward], not among the sources.
    Later recipients are appended to [forwards], in order. *)
Definition AddForward (e : Envelope) (a : Address) : Envelope :=
  {| Id := Id e; RemoteAddress := RemoteAddress e; From := From e; To := To e;
     Forwards := Forwards e ++ [a]; Message := Message e;
     SecurelyDelivered := SecurelyDelivered e |}.

End envelope.

Definition setFrom (a : Address) (e : Envelope) : Envelope :=
  {| Id := Id e; RemoteAddress := RemoteAddress e; From := Some a; To := To e;
     Forwards := Forwards e; Message := Message e;
     SecurelyDelivered := SecurelyDelivered e |}.

Definition setTo (a : Address) (e : Envelope) : Envelope :=
  {| Id := Id e; RemoteAddress := RemoteAddress e; From := From e; To := Some a;
     Forwards := Forwards e; Message := Message e;
     SecurelyDelivered := SecurelyDelivered e |}.

Definition setMessage (m : bytes) (e : Envelope) : Envelope :=
  {| Id := Id e; RemoteAddress := RemoteAddress e; From := From e; To := To e;
     Forwards := Forwards e; Message := m;
     SecurelyDelivered := SecurelyDelivered e |}.

Definition setSecurelyDelivered (b : bool) (e : Envelope) : Envelope :=
  {| Id := Id e; RemoteAddress := RemoteAddress e; From := From e; To := To e;
     Forwards := Forwards e; Message := Message e;
     SecurelyDelivered := b |}.

(** ** package smtpd: commands and their parser *)

(** Modelled from the spec: the command verbs of section 4.1; the declaration
    is not among the sources. Every verb has its own case in the switch of
    [handleTCPConnection], so the [default] case of that switch is never
    taken. *)
Inductive Command :=
| HELO | EHLO | MAILFROM | RCPTTO | DATA | RSET | NOOP
| VRFY | EXPN | HELP | QUIT | STARTTLS | AUTH.

#[global] Instance Command_eq_dec : EqDecision Command.
Proof. solve_decision. Defined.

(** Modelled from the spec: the [ParsedCommand] struct, not among the sources,
    with the three fields [handleTCPConnection] reads. A command that the
    parser rejects has its reply in [Response]; an accepted one has an empty
    [Response]. *)
Record ParsedCommand := {
  Cmd : Command;
  Argument : string;
  Response : string
}.

(** The reply texts. Their declarations are not among the sources; each is
    the text that sections 4.1 and 4.2 give for the reply. *)

(** Modelled from the spec: the reply to an unknown verb (section 4.1). *)
Definition kSyntaxError := "500 Syntax error, command unrecognized".

(** Modelled from the spec: the reply to a verb outside its row. *)
Definition kBadCommandSequence := "503 Bad command sequence".

(** Modelled from the spec: the reply to EXPN and AUTH. *)
Definition kCommandNotImplemented := "502 Not implemented".

(** Modelled from the spec: the reply to NOOP. *)
Definition kNoopCommand := "250 OK".

(** Modelled from the spec: the reply to VRFY. *)
Definition kVerifyAddress := "252 Cannot VRFY".

(** Modelled from the spec: the reply to QUIT and to a failed handshake. *)
Definition kClosingConnection := "221 Bye".

(** Modelled from the spec: the reply to an address that does not parse. *)
Definition kRequestAborted := "451 Requested action aborted".

(** Modelled from the spec: the reply to an accepted MAIL FROM or RCPT TO. *)
Definition kRecipientAccepted := "250 OK".

(** Modelled from the spec: the reply to DATA. *)
Definition kSendData := "354 Start mail input; end with <CRLF>.<CRLF>".

(** Modelled from the spec: [fmt.Sprintf(kMessageAccepted, id)], the reply to
    a body that was read. *)
Definition kMessageAccepted (id : string) := "250 OK: queued as " +:+ id.

(** Modelled from the spec: [fmt.Sprintf(kGreeting, domainName)], the
    greeting. The code fills the template in once and keeps the result. *)
Definition kGreeting (domainName : string) := "220 " +:+ domainName +:+ " ESMTP".

(** The parts of [ParseCmd], which is modelled from the spec below. *)

Module Parser.

Definition isSpace (c : ascii) : bool :=
  Ascii.eqb c " "%char || Ascii.eqb c "009"%char.

Definition toUpper (c : ascii) : ascii :=
  let n := nat_of_ascii c in
  if (97 <=? n)%nat && (n <=? 122)%nat then ascii_of_nat (n - 32) else c.

Fixpoint trimLeft (b : bytes) : bytes :=
  match b with
  | c :: rest => if isSpace c then trimLeft rest else b
  | [] => []
  end.

Definition trimSpace (b : bytes) : bytes := rev (trimLeft (rev (trimLeft b))).

Fixpoint hasPrefix (p b : bytes) : bool :=
  match p, b with
  | [], _ => true
  | x :: p', y :: b' => Ascii.eqb x y && hasPrefix p' b'
  | _ :: _, [] => false
  end.

(** The verb, and what follows the first space. *)
Fixpoint splitVerb (b : bytes) : bytes * bytes :=
  match b with
  | [] => ([], [])
  | c :: rest =>
      if isSpace c then ([], rest)
      else let '(v, a) := splitVerb rest in (c :: v, a)
  end.

(** Angle brackets around an address are tolerated and stripped. *)
Definition stripBrackets (b : bytes) : bytes :=
  let b1 := match b with
            | c :: rest => if Ascii.eqb c "<"%char then rest else b
            | [] => b
            end in
  match rev b1 with
  | c :: rest => if Ascii.eqb c ">"%char then rev rest else b1
  | [] => b1
  end.

Definition verbs : list (string * Command) :=
  [ ("HELO", HELO); ("EHLO", EHLO); ("DATA", DATA); ("RSET", RSET);
    ("NOOP", NOOP); ("VRFY", VRFY); ("EXPN", EXPN); ("HELP", HELP);
    ("QUIT", QUIT); ("STARTTLS", STARTTLS); ("AUTH", AUTH) ].

Fixpoint lookupVerb (v : string) (t : list (string * Command)) : option Command :=
  match t with
  | [] => None
  | (name, c) :: t' => if String.eqb v name then Some c else lookupVerb v t'
  end.

Definition accepted (c : Command) (arg : bytes) : ParsedCommand :=
  {| Cmd := c; Argument := string_of arg; Response := "" |}.

Definition rejected (reply : string) : ParsedCommand :=
  {| Cmd := HELO; Argument := ""; Response := reply |}.

End Parser.

(** Modelled from the spec: [ParseCmd], not among the sources (section 4.1).
    The verb is matched whatever its case, [MAIL FROM:] and [RCPT TO:] need
    their colon and give the address without its brackets, spaces around the
    parts are dropped, and an unknown verb gives the 500 reply. *)
Definition ParseCmd (line : string) : ParsedCommand :=
  let l := Parser.trimSpace (bytes_of line) in
  let u := map Parser.toUpper l in
  if Parser.hasPrefix (bytes_of "MAIL FROM:") u then
    Parser.accepted MAILFROM
      (Parser.stripBrackets (Parser.trimSpace (drop 10 l)))
  else if Parser.hasPrefix (bytes_of "RCPT TO:") u then
    Parser.accepted RCPTTO
      (Parser.stripBrackets (Parser.trimSpace (drop 8 l)))
  else
    let '(v, a) := Parser.splitVerb l in
    match Parser.lookupVerb (string_of (map Parser.toUpper v)) Parser.verbs with
    | Some c => Parser.accepted c (Parser.trimSpace a)
    | None => Parser.rejected kSyntaxError
    end.

(** ** package smtpd: the client session *)

(** The TCP connection as the session sees it. [writes] lists the payloads of
    the [writeData] calls in order; [writeFails] tells whether the network
    refuses them; [readDeadline] is an absolute time in nanoseconds. *)
Record Conn := {
  remoteAddr : string;
  writes : list string;
  writeFails : bool;
  readDeadline : Z;
  closed : bool
}.

(** What the peer does when the server starts TLS on the connection: whether
    it sends a ClientHello, whether it lets the handshake complete, and the
    bytes it then sends inside the channel. *)
Record TLSAttempt := {
  clientHello : bool;
  handshakeOk : bool;
  tlsInput : bytes
}.

(** How [tlsConn.Handshake()] ends: with no error, with an error, or in a
    panic of the goroutine. *)
Inductive HandshakeEnd :=
| HandshakeDone
| HandshakeError
| HandshakePanic.

(** [tlsConn.Handshake()] of Go's crypto/tls on
    [tls.Server(client.conn, s.tlsConfig)]. With a configuration the handshake
    ends as the peer lets it. With none (the [nil] of a server made without
    TLS) it ends in an error when the peer sends no ClientHello, and in a
    panic on the [nil] configuration when the peer sends one (a peer that
    lets the handshake complete has sent one). *)
Definition Handshake (config : option (string * string)) (a : TLSAttempt) : HandshakeEnd :=
  match config with
  | Some _ => if handshakeOk a then HandshakeDone else HandshakeError
  | None =>
      if clientHello a || handshakeOk a then HandshakePanic else HandshakeError
  end.

(** Modelled from the spec: the sequence states of section 4.2. *)
Inductive SeqState :=
| GREETED | HELO_OK | FROM_OK | RCPT_OK | DATA_MODE | POST_DATA.

#[global] Instance SeqState_eq_dec : EqDecision SeqState.
Proof. solve_decision. Defined.

(** Modelled from the spec: the [clientSession] struct, not among the sources.
    [conn], [tlsConn], [isTLS] and [remoteAddress] are the fields
    [handleTCPConnection] uses; [seq], [heloSeen] and [mailTransaction] are the
    sequence state and flags of section 4.2. *)
Record clientSession := {
  conn : Conn;
  tlsConn : option TLSAttempt;
  isTLS : bool;
  remoteAddress : string;
  seq : SeqState;
  heloSeen : bool;
  mailTransaction : bool
}.

Definition setConn (c : Conn) (x : clientSession) : clientSession :=
  {| conn := c; tlsConn := tlsConn x; isTLS := isTLS x;
     remoteAddress := remoteAddress x; seq := seq x; heloSeen := heloSeen x;
     mailTransaction := mailTransaction x |}.

Definition setTlsConn (t : option TLSAttempt) (x : clientSession) : clientSession :=
  {| conn := conn x; tlsConn := t; isTLS := isTLS x;
     remoteAddress := remoteAddress x; seq := seq x; heloSeen := heloSeen x;
     mailTransaction := mailTransaction x |}.

Definition setIsTLS (b : bool) (x : clientSession) : clientSession :=
  {| conn := conn x; tlsConn := tlsConn x; isTLS := b;
     remoteAddress := remoteAddress x; seq := seq x; heloSeen := heloSeen x;
     mailTransaction := mailTransaction x |}.

Definition setSeq (q : SeqState) (x : clientSession) : clientSession :=
  {| conn := conn x; tlsConn := tlsConn x; isTLS := isTLS x;
     remoteAddress := remoteAddress x; seq := q; heloSeen := heloSeen x;
     mailTransaction := mailTransaction x |}.

Definition setHeloSeen (b : bool) (x : clientSession) : clientSession :=
  {| conn := conn x; tlsConn := tlsConn x; isTLS := isTLS x;
     remoteAddress := remoteAddress x; seq := seq x; heloSeen := b;
     mailTransaction := mailTransaction x |}.

Definition setMailTransaction (b : bool) (x : clientSession) : clientSession :=
  {| conn := conn x; tlsConn := tlsConn x; isTLS := isTLS x;
     remoteAddress := remoteAddress x; seq := seq x; heloSeen := heloSeen x;
     mailTransaction := b |}.

(** [conn.SetReadDeadline(t)] *)
Definition SetReadDeadline (t : Z) (c : Conn) : Conn :=
  {| remoteAddr := remoteAddr c; writes := writes c; writeFails := writeFails c;
     readDeadline := t; closed := closed c |}.

(** [conn.Close()] *)
Definition Close (c : Conn) : Conn :=
  {| remoteAddr := remoteAddr c; writes := writes c; writeFails := writeFails c;
     readDeadline := readDeadline c; closed := true |}.

Definition record (data : string) (c : Conn) : Conn :=
  {| remoteAddr := remoteAddr c; writes := writes c ++ [data];
     writeFails := writeFails c; readDeadline := readDeadline c;
     closed := closed c |}.

(** Modelled from the spec: [NewClientSession], not among the sources. A
    session starts in [GREETED] on a plain channel. *)
Definition NewClientSession (c : Conn) : clientSession :=
  {| conn := c; tlsConn := None; isTLS := false; remoteAddress := remoteAddr c;
     seq := GREETED; heloSeen := false; mailTransaction := false |}.

(** Modelled from the spec: [clientSession.writeData], not among the sources.
    It sends one reply line and reports the error of the network. *)
Definition writeData (x : clientSession) (data : string) : clientSession * option error :=
  (setConn (record data (conn x)) x,
   if writeFails (conn x) then Some "write error" else None).

(** Modelled from the spec: the sequence table of section 4.2. *)
Definition sequenceTable (q : SeqState) : list Command :=
  match q with
  | GREETED => [HELO; EHLO; NOOP; RSET; QUIT; STARTTLS]
  | HELO_OK => [MAILFROM; NOOP; RSET; QUIT; STARTTLS; EHLO; HELO; HELP; VRFY; EXPN; AUTH]
  | FROM_OK => [RCPTTO; RSET; NOOP; QUIT]
  | RCPT_OK => [RCPTTO; DATA; RSET; NOOP; QUIT]
  | DATA_MODE => []
  | POST_DATA => [RSET; QUIT]
  end.

(** Modelled from the spec: [clientSession.verifyState], not among the
    sources: a table lookup that changes nothing. [None] is the [nil] error. *)
Definition verifyState (x : clientSession) (c : Command) : option error :=
  if bool_decide (c ∈ sequenceTable (seq x)) then None
  else Some "bad command sequence".

(** Modelled from the spec: [clientSession.reset], not among the sources: back
    to [HELO_OK] when HELO or EHLO had been seen, else to [GREETED]. *)
Definition reset (x : clientSession) : clientSession :=
  setMailTransaction false
    (setSeq (if heloSeen x then HELO_OK else GREETED) x).

(** Modelled from the spec: [clientSession.markState], not among the sources:
    the state an accepted verb leads to (section 4.2). *)
Definition markState (x : clientSession) (c : Command) : clientSession :=
  match c with
  | HELO | EHLO => setHeloSeen true (setSeq HELO_OK x)
  | MAILFROM => setMailTransaction true (setSeq FROM_OK x)
  | RCPTTO => setSeq RCPT_OK x
  | DATA => setSeq DATA_MODE x
  | STARTTLS => setSeq GREETED x
  | RSET | NOOP | VRFY | EXPN | HELP | QUIT | AUTH => x
  end.

(** Modelled from the spec: [clientSession.isInDataMode], not among the
    sources. *)
Definition isInDataMode (x : clientSession) : bool :=
  bool_decide (seq x = DATA_MODE).

(** Modelled from the spec: [clientSession.MarkInPostDataMode], not among the
    sources. *)
Definition MarkInPostDataMode (x : clientSession) : clientSession :=
  setSeq POST_DATA x.

(** Modelled from the spec: [clientSession.hasInitiatedMailTransaction], not
    among the sources: the flag [mail_transaction_started] of section 4.2. *)
Definition hasInitiatedMailTransaction (x : clientSession) : bool :=
  mailTransaction x.

(** ** package smtpd: the connection table *)

(** The package variables [clientConnections], [clientMutex] (held or not)
    and [totalClientConnections]. *)
Record Globals := {
  clientConnections : gmap string clientSession;
  clientMutex : bool;
  totalClientConnections : Z
}.

(** [clientMutex.Lock()]: goes on only when the mutex is free; [None] is a
    goroutine that waits. *)
Definition Lock (g : Globals) : option Globals :=
  if clientMutex g then None
  else Some {| clientConnections := clientConnections g; clientMutex := true;
               totalClientConnections := totalClientConnections g |}.

(** [clientMutex.Unlock()] *)
Definition Unlock (g : Globals) : Globals :=
  {| clientConnections := clientConnections g; clientMutex := false;
     totalClientConnections := totalClientConnections g |}.

Definition incrementConnectionCounter (clientId : string) (x : clientSession)
    (g : Globals) : option Globals :=
  match Lock g with
  | None => None
  | Some g1 =>
      Some (Unlock
        {| clientConnections := <[clientId := x]> (clientConnections g1);
           clientMutex := clientMutex g1;
           totalClientConnections := int_wrap (totalClientConnections g1 + 1) |})
  end.

Definition decrementConnectionCounter (clientId : string) (g : Globals) : option Globals :=
  match Lock g with
  | None => None
  | Some g1 =>
      Some (Unlock
        {| clientConnections := delete clientId (clientConnections g1);
           clientMutex := clientMutex g1;
           totalClientConnections := int_wrap (totalClientConnections g1 - 1) |})
  end.

(** ** package smtpd: the server *)

(** [tcpServer]. [envelopeChannel] tells whether the server was given a
    channel ([false] is the [nil] channel); [tlsConfig] is set exactly when a
    certificate was loaded. The listener and its mutex are left to [World]. *)
Record tcpServer := {
  localAddr : string;
  localPort : string;
  name : string;
  withTLS : bool;
  tlsConfig : option (string * string);
  envelopeChannel : bool
}.

(** [NewTCPServer]; [LoadX509KeyPair] is the environment's: the pair it loads,
    or nothing when it fails. *)
Definition NewTCPServer (LoadX509KeyPair : string -> string -> option (string * string))
    (ip port serverName certPath keyPath : string) (withTLS0 : bool)
    (envelopeChannel0 : bool) : option tcpServer :=
  if withTLS0 then
    match LoadX509KeyPair certPath keyPath with
    | None => None
    | Some cert =>
        Some {| localAddr := ip; localPort := port; name := serverName;
                withTLS := withTLS0; tlsConfig := Some cert;
                envelopeChannel := envelopeChannel0 |}
    end
  else
    Some {| localAddr := ip; localPort := port; name := serverName;
            withTLS := withTLS0; tlsConfig := None;
            envelopeChannel := envelopeChannel0 |}.

(** The variables of [handleTCPConnection] that its loop reads and writes:
    [client], [envelopeData], the unread input of [reader] and
    [totalCommandErrors]; and its surroundings: the envelopes sent on the
    server's channel ([channel]), how many ids the generator has given
    ([nextId]), and what the peer will do on the TLS starts to come
    ([peer]). *)
Record Loop := {
  client : clientSession;
  envelopeData : Envelope;
  reader : bytes;
  totalCommandErrors : Z;
  channel : list Envelope;
  nextId : nat;
  peer : list TLSAttempt
}.

Definition withClient (x : clientSession) (l : Loop) : Loop :=
  {| client := x; envelopeData := envelopeData l; reader := reader l;
     totalCommandErrors := totalCommandErrors l; channel := channel l;
     nextId := nextId l; peer := peer l |}.

Definition withEnvelope (e : Envelope) (l : Loop) : Loop :=
  {| client := client l; envelopeData := e; reader := reader l;
     totalCommandErrors := totalCommandErrors l; channel := channel l;
     nextId := nextId l; peer := peer l |}.

Definition withReader (r : bytes) (l : Loop) : Loop :=
  {| client := client l; envelopeData := envelopeData l; reader := r;
     totalCommandErrors := totalCommandErrors l; channel := channel l;
     nextId := nextId l; peer := peer l |}.

Definition withErrors (n : Z) (l : Loop) : Loop :=
  {| client := client l; envelopeData := envelopeData l; reader := reader l;
     totalCommandErrors := n; channel := channel l;
     nextId := nextId l; peer := peer l |}.

Definition withChannel (q : list Envelope) (l : Loop) : Loop :=
  {| client := client l; envelopeData := envelopeData l; reader := reader l;
     totalCommandErrors := totalCommandErrors l; channel := q;
     nextId := nextId l; peer := peer l |}.

Definition withNextId (n : nat) (l : Loop) : Loop :=
  {| client := client l; envelopeData := envelopeData l; reader := reader l;
     totalCommandErrors := totalCommandErrors l; channel := channel l;
     nextId := n; peer := peer l |}.

Definition withPeer (p : list TLSAttempt) (l : Loop) : Loop :=
  {| client := client l; envelopeData := envelopeData l; reader := reader l;
     totalCommandErrors := totalCommandErrors l; channel := channel l;
     nextId := nextId l; peer := p |}.

(** [client.writeData(data)] with its error dropped, as the loop does. *)
Definition say (data : string) (l : Loop) : Loop :=
  withClient (fst (writeData (client l) data)) l.

(** How one pass of [command_loop] ends: at [continue] or at the end of the
    body, at a [break] out of the loop, or in a panic of the goroutine. *)
Inductive Flow :=
| Continue (l : Loop)
| Break (l : Loop)
| Panic (l : Loop).

(** Where a flow leaves the loop variables. *)
Definition after (f : Flow) : Loop :=
  match f with Continue l => l | Break l => l | Panic l => l end.

(** [tls.Server(client.conn, s.tlsConfig)]: the next thing the peer does on a
    TLS start; a peer that does nothing fails the handshake. *)
Definition tlsServer (p : list TLSAttempt) : TLSAttempt * list TLSAttempt :=
  match p with
  | a :: more => (a, more)
  | [] => ({| clientHello := false; handshakeOk := false; tlsInput := [] |}, [])
  end.

Section Session.

(** [mail.ParseAddress] of Go's net/mail *)
Variable ParseAddress : string -> option Address.

(** the values the id generator gives, in order *)
Variable idGenerator : nat -> string.

(** the constant [kFixedSize] and the variable [domainName], whose
    declarations are not among the sources *)
Variable kFixedSize : N.
Variable domainName : string.

Definition verifyEmailAddress (email : string) : option Address :=
  ParseAddress email.

(** [s.queueForDelivery(e)]; the send is taken by a receiver that is ready. *)
Definition queueForDelivery (s : tcpServer) (e : Envelope) (l : Loop) : Loop :=
  if envelopeChannel s then withChannel (channel l ++ [e]) l else l.

(** [envelope.NewEnvelope(clientId)] with the next id of the generator. *)
Definition freshEnvelope (clientId : string) (l : Loop) : Loop :=
  withNextId (S (nextId l))
    (withEnvelope (envelope.NewEnvelope (idGenerator (nextId l)) clientId) l).

(** The body of the loop while the client is in data mode (lines 164-195). *)
Definition dataIteration (s : tcpServer) (l : Loop) : Flow :=
  let '(dotBytes, err, rest) := Textproto.ReadDotBytes (reader l) in
  let l := withReader rest l in
  match err with
  | Some _ => Break l
  | None =>
      if (0 <? length dotBytes)%nat then
        let l := withEnvelope (setMessage dotBytes (envelopeData l)) l in
        let l := say (kMessageAccepted (Id (envelopeData l))) l in
        let l := withClient (MarkInPostDataMode (client l)) l in
        let l := queueForDelivery s (envelopeData l) l in
        Continue l
      else Continue l
  end.

(** The body of the loop from the parsed command on (lines 203-358). Log
    lines are left out, and with them [client.verifyHost], whose error is only
    logged. *)
Definition handleCommand (s : tcpServer) (clientId : string)
    (command : ParsedCommand) (l : Loop) : Flow :=
  if negb (String.eqb (Response command) "") then
    let l := say (Response command) l in
    let l := withErrors (int_wrap (totalCommandErrors l + 1)) l in
    if (totalCommandErrors l =? 5)%Z then Break l else Continue l
  else
    match verifyState (client l) (Cmd command) with
    | Some _ => Continue (say kBadCommandSequence l)
    | None =>
        let l := withClient (markState (client l) (Cmd command)) l in
        match Cmd command with
        | EXPN => Continue (say kCommandNotImplemented l)
        | HELP =>
            let l := say "214 SMTP servers help those who help themselves." l in
            Continue (say "214 Go read http://cr.yp.to/smtp.html." l)
        | NOOP => Continue (say kNoopCommand l)
        | VRFY => Continue (say kVerifyAddress l)
        | RSET =>
            let l := freshEnvelope clientId l in
            let l := withClient (reset (client l)) l in
            Continue (say "250 OK" l)
        | STARTTLS =>
            let '(tlsConn0, more) := tlsServer (peer l) in
            let l := withPeer more l in
            let l := withClient (setTlsConn (Some tlsConn0) (client l)) l in
            let l := withReader (tlsInput tlsConn0) l in
            match Handshake (tlsConfig s) tlsConn0 with
            | HandshakePanic => Panic l
            | HandshakeError => Break (say kClosingConnection l)
            | HandshakeDone =>
                let l := withClient (setIsTLS true (client l)) l in
                let l :=
                  if negb (hasInitiatedMailTransaction (client l)) then
                    withEnvelope (setSecurelyDelivered true (envelopeData l)) l
                  else l in
                Continue l
            end
        | HELO =>
            Continue (say ("250 " +:+ name s +:+ " Hello "
                           +:+ remoteAddress (client l)) l)
        | EHLO =>
            let l := say ("250-" +:+ name s +:+ " Hello "
                          +:+ remoteAddress (client l)) l in
            let l := say ("250-SIZE " +:+ decimal kFixedSize) l in
            let l := say "250-PIPELINING" l in
            let l := say "250 8BITMIME" l in
            let l := say "250-VRFY" l in
            let l := say "250-HELP" l in
            let l :=
              if negb (withTLS s) && negb (isTLS (client l)) then
                say "250-STARTTLS" l
              else l in
            Continue l
        | AUTH => Continue (say kCommandNotImplemented l)
        | MAILFROM =>
            match verifyEmailAddress (Argument command) with
            | None => Continue (say kRequestAborted l)
            | Some fromAddress =>
                let l := withEnvelope (setFrom fromAddress (envelopeData l)) l in
                Continue (say kRecipientAccepted l)
            end
        | RCPTTO =>
            match verifyEmailAddress (Argument command) with
            | None => Continue (say kRequestAborted l)
            | Some toAddress =>
                let l :=
                  match To (envelopeData l) with
                  | None => withEnvelope (setTo toAddress (envelopeData l)) l
                  | Some _ =>
                      withEnvelope
                        (envelope.AddForward (envelopeData l) toAddress) l
                  end in
                Continue (say kRecipientAccepted l)
            end
        | DATA => Continue (say kSendData l)
        | QUIT => Break (say kClosingConnection l)
        end
    end.

(** The body of the loop when a command is expected (lines 197-358): the
    error of [ReadLine] is only logged. *)
Definition commandIteration (s : tcpServer) (clientId : string) (l : Loop) : Flow :=
  let '(line, err, rest) := Textproto.ReadLine (reader l) in
  let l := withReader rest l in
  handleCommand s clientId (ParseCmd line) l.

(** One pass of [command_loop]. *)
Definition iteration (s : tcpServer) (clientId : string) (l : Loop) : Flow :=
  if isInDataMode (client l) then dataIteration s l
  else commandIteration s clientId l.

(** [command_loop] with how it is left: at most [fuel] passes; [None] when
    they reach neither a [break] nor a panic. *)
Fixpoint loop_end (fuel : nat) (s : tcpServer) (clientId : string)
    (l : Loop) : option Flow :=
  match fuel with
  | O => None
  | S fuel' =>
      match iteration s clientId l with
      | Continue l' => loop_end fuel' s clientId l'
      | Break l' => Some (Break l')
      | Panic l' => Some (Panic l')
      end
  end.

(** [command_loop]: at most [fuel] passes; [None] when they do not reach a
    [break]. *)
Definition command_loop (fuel : nat) (s : tcpServer) (clientId : string)
    (l : Loop) : option Loop :=
  match loop_end fuel s clientId l with
  | Some (Break l') => Some l'
  | _ => None
  end.

(** How [handleTCPConnection] ends: [GreetingFailed] is the return when the
    greeting cannot be written; [Waiting] is a wait for [clientMutex] in
    [incrementConnectionCounter] that does not end; [Unfinished] is [fuel]
    used up; [Panicked] is a panic in the loop, which ends the program;
    [WaitingAtEnd] is a wait for [clientMutex] in
    [decrementConnectionCounter] that does not end, with the deferred
    [Close] still to come; [Finished] is the return after the loop. Each
    outcome but [Waiting] and [Unfinished] shows the package variables as the
    session leaves them. *)
Inductive Ended :=
| GreetingFailed (g : Globals) (x : clientSession)
| Waiting
| Unfinished
| Panicked (g : Globals) (l : Loop)
| WaitingAtEnd (g : Globals) (l : Loop)
| Finished (g : Globals) (l : Loop).

(** The deferred [client.conn.Close()]. *)
Definition closeAll (l : Loop) : Loop :=
  withClient (setConn (Close (conn (client l))) (client l)) l.

(** [handleTCPConnection]: [input] is what the peer sends on the plain
    connection, [peer0] what it does on TLS starts, [n0] the number of ids
    already given, and [meanwhile] what the other goroutines (the listener,
    other sessions) do to the package variables between the time this session
    raises the count and the time it comes to lower it; [g] is the package
    variables as the session finds them when it raises the count. *)
Definition handleTCPConnection (fuel : nat) (s : tcpServer) (g : Globals)
    (meanwhile : Globals -> Globals)
    (x : clientSession) (input : bytes) (peer0 : list TLSAttempt) (n0 : nat) : Ended :=
  let clientId := remoteAddr (conn x) in
  match writeData x (kGreeting domainName) with
  | (x1, Some _) => GreetingFailed g (setConn (Close (conn x1)) x1)
  | (x1, None) =>
      match incrementConnectionCounter clientId x1 g with
      | None => Waiting
      | Some g1 =>
          let l0 := {| client := x1;
                       envelopeData := envelope.NewEnvelope (idGenerator n0) clientId;
                       reader := input; totalCommandErrors := 0;
                       channel := []; nextId := S n0; peer := peer0 |} in
          match loop_end fuel s clientId l0 with
          | None | Some (Continue _) => Unfinished
          | Some (Panic l1) => Panicked (meanwhile g1) (closeAll l1)
          | Some (Break l1) =>
              match decrementConnectionCounter clientId (meanwhile g1) with
              | None => WaitingAtEnd (meanwhile g1) l1
              | Some g2 => Finished g2 (closeAll l1)
              end
          end
      end
  end.

End Session.

(** ** package smtpd: the listener *)

(** [4 * time.Minute], in nanoseconds *)
Definition fourMinutes : Z := 4 * 60 * 1000000000.

(** What the accept loop of [Start] has made: the package variables, the
    sessions handed to a goroutine ([go s.handleTCPConnection(...)]), and the
    accepted connections that got none. *)
Record World := {
  globals : Globals;
  sessions : list clientSession;
  unserved : list Conn
}.

Section Listener.

(** [smtp.max_client_connections] as read at start-up (default 64000). *)
Variable maxClientConnections : Z.

(** One pass of the accept loop (lines 92-111) for a call of [AcceptTCP] that
    returns [accepted] at time [now]; [None] is the listener waiting for
    [clientMutex]. *)
Definition acceptIteration (now : Z) (accepted : option Conn) (w : World) : option World :=
  match accepted with
  | None => Some w
  | Some c =>
      match Lock (globals w) with
      | None => None
      | Some g1 =>
          if (maxClientConnections <=? totalClientConnections g1)%Z then
            Some {| globals := g1; sessions := sessions w;
                    unserved := unserved w ++ [c] |}
          else
            let g2 := Unlock g1 in
            let c' := SetReadDeadline (now + fourMinutes) c in
            Some {| globals := g2;
                    sessions := sessions w ++ [NewClientSession c'];
                    unserved := unserved w |}
      end
  end.

(** What the goroutines of the program do to the package variables. *)
Inductive Event :=
| Accept (now : Z) (accepted : option Conn)
| SessionStarts (clientId : string) (x : clientSession)
| SessionEnds (clientId : string).

Definition onGlobals (f : Globals -> option Globals) (w : World) : option World :=
  match f (globals w) with
  | None => None
  | Some g => Some {| globals := g; sessions := sessions w; unserved := unserved w |}
  end.

(** One goroutine goes on; [None] when it waits for [clientMutex]. *)
Definition perform (e : Event) (w : World) : option World :=
  match e with
  | Accept now accepted => acceptIteration now accepted w
  | SessionStarts clientId x => onGlobals (incrementConnectionCounter clientId x) w
  | SessionEnds clientId => onGlobals (decrementConnectionCounter clientId) w
  end.

(** The program under a schedule: an event whose goroutine waits leaves the
    world as it is. *)
Fixpoint schedule (es : list Event) (w : World) : World :=
  match es with
  | [] => w
  | e :: es' =>
      match perform e w with
      | Some w' => schedule es' w'
      | None => schedule es' w
      end
  end.

End Listener.

(** ** package api: the JSON controller *)

Module api.

(** [http.ResponseWriter]: the header map, the status once it is written, and
    the body written so far. *)
Record ResponseWriter := {
  header : gmap string (list string);
  status : option Z;
  body : bytes
}.

Record Request := { Method : string; URL : string }.

(** [w.Header().Set(key, value)] *)
Definition Header_Set (key value : string) (w : ResponseWriter) : ResponseWriter :=
  {| header := <[key := [value]]> (header w); status := status w; body := body w |}.

(** [w.WriteHeader(code)]: the first status stays. *)
Definition WriteHeader (code : Z) (w : ResponseWriter) : ResponseWriter :=
  {| header := header w;
     status := match status w with Some c => Some c | None => Some code end;
     body := body w |}.

(** [w.Write(b)]: a first write sends status 200. *)
Definition Write (b : bytes) (w : ResponseWriter) : ResponseWriter :=
  let w := WriteHeader 200 w in
  {| header := header w; status := status w; body := body w ++ b |}.

Definition StatusInternalServerError : Z := 500.

(** [http.Error(w, msg, code)] *)
Definition http_Error (w : ResponseWriter) (msg : string) (code : Z) : ResponseWriter :=
  let w := Header_Set "Content-Type" "text/plain; charset=utf-8" w in
  let w := Header_Set "X-Content-Type-Options" "nosniff" w in
  let w := WriteHeader code w in
  Write (bytes_of msg ++ [LF]) w.

Definition null : bytes := bytes_of "null".
Definition empty : bytes := bytes_of "{}".

(** [bytes.Equal] *)
Definition bytes_Equal (a b : bytes) : bool := bool_decide (a = b).

Definition io_EOF : error := "EOF".

Section Controller.

(** the values handed to the controller, and [json.Marshal] of Go's
    encoding/json on them *)
Variable Data : Type.
Variable Marshal : Data -> bytes * option error.

(** The interface [output]. *)
Class output (C : Type) := {
  JSON : C -> Data -> ResponseWriter -> Request -> ResponseWriter;
  Error500 : C -> error -> ResponseWriter -> Request -> ResponseWriter
}.

Inductive SimpleController := mkSimpleController.

Definition SimpleController_Error500 (c : SimpleController) (err : error)
    (w : ResponseWriter) (r : Request) : ResponseWriter :=
  if String.eqb err io_EOF then
    http_Error w "Item not found" StatusInternalServerError
  else http_Error w err StatusInternalServerError.

Definition SimpleController_JSON (c : SimpleController) (data : Data)
    (w : ResponseWriter) (r : Request) : ResponseWriter :=
  let w := Header_Set "Content-Type" "application/json; charset=utf-8" w in
  let '(content, err) := Marshal data in
  match err with
  | Some e => SimpleController_Error500 c e w r
  | None =>
      if bytes_Equal content null then Write empty w
      else Write content w
  end.

#[global] Instance SimpleController_output : output SimpleController :=
  {| JSON := SimpleController_JSON; Error500 := SimpleController_Error500 |}.

End Controller.

End api.

(** ** Inputs for the worked sessions *)

Module Demo.

(** A stand-in for [mail.ParseAddress] on the worked inputs: a string with an
    at sign in it is an address. *)
Definition simpleParseAddress (s : string) : option Address :=
  if bool_decide ("@"%char ∈ bytes_of s) then Some {| Name := ""; Addr := s |}
  else None.

Definition ids (n : nat) : string := "id" +:+ decimal (N.of_nat n).

Definition size : N := 10240000.

Definition plainServer : tcpServer :=
  {| localAddr := "0.0.0.0"; localPort := "10025"; name := "localhost";
     withTLS := false; tlsConfig := None; envelopeChannel := true |}.

Definition secureServer : tcpServer :=
  {| localAddr := "0.0.0.0"; localPort := "10026"; name := "localhost";
     withTLS := true; tlsConfig := Some ("cert.pem", "key.pem");
     envelopeChannel := true |}.

Definition socket : Conn :=
  {| remoteAddr := "192.0.2.7:40000"; writes := []; writeFails := false;
     readDeadline := fourMinutes; closed := false |}.

Definition noConnections : Globals :=
  {| clientConnections := ∅; clientMutex := false; totalClientConnections := 0 |}.

(** The bytes of command lines, each ended by CRLF. *)
Definition wire (lines : list string) : bytes :=
  concat (map (fun l => bytes_of (l +:+ CRLF)) lines).

(** A whole session from accept on, with no other goroutine at the package
    variables while it runs. *)
Definition session (fuel : nat) (s : tcpServer) (input : bytes)
    (peer0 : list TLSAttempt) : Ended :=
  handleTCPConnection simpleParseAddress ids size "localhost" fuel s
    noConnections (fun g => g) (NewClientSession socket) input peer0 0.

(** The writes and the envelopes sent of a session that ended. *)
Definition replies (e : Ended) : list string :=
  match e with
  | Finished _ l | Panicked _ l | WaitingAtEnd _ l => writes (conn (client l))
  | GreetingFailed _ x => writes (conn x)
  | Waiting | Unfinished => []
  end.

Definition stored (e : Ended) : list Envelope :=
  match e with
  | Finished _ l | Panicked _ l | WaitingAtEnd _ l => channel l
  | _ => []
  end.

(** A loop state for the session on [socket] in sequence state [q]. *)
Definition at_state (q : SeqState) (input : bytes) : Loop :=
  {| client := setSeq q (NewClientSession socket);
     envelopeData := envelope.NewEnvelope (ids 0) (remoteAddr socket);
     reader := input; totalCommandErrors := 0; channel := [];
     nextId := 1; peer := [] |}.

(** A stand-in for [json.Marshal] on the worked inputs: no value is [null],
    a number is its decimal form. *)
Definition marshalNumber (d : option N) : bytes * option error :=
  match d with
  | None => (api.null, None)
  | Some n => (bytes_of (decimal n), None)
  end.

Definition freshResponse : api.ResponseWriter :=
  {| api.header := ∅; api.status := None; api.body := [] |}.

Definition getRequest : api.Request :=
  {| api.Method := "GET"; api.URL := "/emails" |}.

(** The peer completes the handshake and goes on inside TLS with [lines]. *)
Definition overTLS (lines : list string) : TLSAttempt :=
  {| clientHello := true; handshakeOk := true; tlsInput := wire lines |}.

(** Nothing accepted yet, one session alive. *)
Definition oneLive : World :=
  {| globals := {| clientConnections := ∅; clientMutex := false;
                   totalClientConnections := 1 |};
     sessions := []; unserved := [] |}.

Definition idle : World :=
  {| globals := noConnections; sessions := []; unserved := [] |}.

End Demo.

(** ** Further inputs and notions for the properties of the code *)

(** The session an accepted connection gets: its read deadline is set four
    minutes after the time of the accept. *)
Definition sessionFor (a : Z * Conn) : clientSession :=
  NewClientSession (SetReadDeadline (fst a + fourMinutes) (snd a)).

Module Inputs.


(** A stand-in for a [json.Marshal] that fails on every value. *)
Definition marshalFails (d : unit) : bytes * option error :=
  ([], Some "json: unsupported type").

(** A second connection, from another port. *)
Definition socket2 : Conn :=
  {| remoteAddr := "192.0.2.7:40001"; writes := []; writeFails := false;
     readDeadline := 0; closed := false |}.

(** A whole mail and QUIT. *)
Definition mail : bytes :=
  Demo.wire ["HELO x"; "MAIL FROM:<a@b>"; "RCPT TO:<c@d>"; "DATA"; "hi"; ".";
             "QUIT"].

(** The loop state of a session on [Demo.socket] that has just been greeted. *)
Definition greeted (input : bytes) : Loop := Demo.at_state GREETED input.

(** The same session after a TLS upgrade. *)
Definition upgraded (input : bytes) : Loop :=
  withClient (setIsTLS true (client (greeted input))) (greeted input).

(** What the listener does to the package variables when it takes a
    connection while the count is at a cap of one: it keeps the mutex. *)
Definition listenerAtCap (g : Globals) : Globals :=
  match acceptIteration 1 0 (Some socket2)
          {| globals := g; sessions := []; unserved := [] |} with
  | Some w => globals w
  | None => g
  end.

End Inputs.

(** ** What is left to read *)

(** The input a session can still read: the unread input of its reader and,
    for every TLS start the peer will answer, that start and the input that
    comes with it. *)
Definition pending (l : Loop) : nat :=
  length (reader l)
  + list_sum (map (fun a => S (length (tlsInput a))) (peer l)).

(** Passes of the loop that are enough for the session to end. *)
Definition enoughFuel (l : Loop) : nat :=
  S (pending l + Z.to_nat (5 - totalCommandErrors l)).

(** Case analysis on every test the body of the loop makes. *)
Ltac split_flow :=
  repeat (cbv zeta; cbn [peer withClient];
          lazymatch goal with
          | |- context [match ?x with _ => _ end] => destruct x
          end);
  try reflexivity.

(** ** Statements of the specification that the code is compared with *)

(** Section 4.2 on the read deadline: after a command read at time [now] the
    deadline is [now] plus the duration. *)
Definition refreshedAt (now : Z) (l : Loop) : Prop :=
  readDeadline (conn (client l)) = (now + fourMinutes)%Z.

(** A reply line that ends a multi-line reply: its code is followed by a
    space; a line that announces more has a hyphen there. *)
Definition terminalLine (line : string) : bool :=
  match bytes_of line with
  | _ :: _ :: _ :: c :: _ => Ascii.eqb c " "%char
  | _ => false
  end.

Definition continuationLine (line : string) : bool :=
  match bytes_of line with
  | _ :: _ :: _ :: c :: _ => Ascii.eqb c "-"%char
  | _ => false
  end.

(** ** Properties *)

(** *** net/textproto *)

Module TextprotoFacts.
Import Textproto.

Lemma emit_prepend c p r : emit c (prepend p r) = prepend (c :: p) r.
Proof. destruct r as [[out rest]|]; reflexivity. Qed.

Lemma emit_as_prepend c r : emit c r = prepend [c] r.
Proof. destruct r as [[out rest]|]; reflexivity. Qed.

Lemma eqb_ne (a b : ascii) : a <> b -> Ascii.eqb a b = false.
Proof. intros H. apply Ascii.eqb_neq. exact H. Qed.

(** In the middle of a line, the rest of the line and its CRLF come out as the
    line and a line feed. *)
Lemma dotRead_data line more :
  plain line ->
  dotRead stateData (line ++ CR :: LF :: more)
  = prepend (line ++ [LF]) (dotRead stateBeginLine more).
Proof.
  induction 1 as [|c line [Hcr Hlf] _ IH].
  - cbn. apply emit_as_prepend.
  - cbn [app dotRead]. rewrite (eqb_ne _ _ Hcr), (eqb_ne _ _ Hlf), IH.
    apply emit_prepend.
Qed.

(** A stuffed line at the beginning of a line comes out without the dot that
    was added. *)
Lemma dotRead_line line more :
  plain line ->
  dotRead stateBeginLine (stuff line ++ CR :: LF :: more)
  = prepend (line ++ [LF]) (dotRead stateBeginLine more).
Proof.
  intros Hp. destruct line as [|c line].
  - cbn. apply emit_as_prepend.
  - inversion Hp as [|? ? [Hcr Hlf] Hrest]; subst.
    unfold stuff. destruct (Ascii.eqb c DOT) eqn:Hdot.
    + apply Ascii.eqb_eq in Hdot. subst c.
      change (dotRead stateBeginLine ((DOT :: DOT :: line) ++ CR :: LF :: more))
        with (emit DOT (dotRead stateData (line ++ CR :: LF :: more))).
      rewrite (dotRead_data _ _ Hrest). apply emit_prepend.
    + cbn [app dotRead]. rewrite Hdot, (eqb_ne _ _ Hcr), (dotRead_data _ _ Hrest).
      apply emit_prepend.
Qed.

Lemma prepend_prepend p q r : prepend p (prepend q r) = prepend (p ++ q) r.
Proof. destruct r as [[out rest]|]; cbn; [rewrite app_assoc|]; reflexivity. Qed.

(** Decoding what a conforming client sends gives the lines back, each ended
    by a single line feed, and leaves the input after the end marker. *)
Lemma dotRead_dotEncode lines more :
  Forall plain lines ->
  dotRead stateBeginLine (dotEncode lines ++ more) = Some (unlinesLF lines, more).
Proof.
  unfold dotEncode, unlinesLF. induction 1 as [|line lines Hp _ IH].
  - reflexivity.
  - cbn [map concat]. rewrite <- !app_assoc.
    change ([CR; LF] ++ ?x) with (CR :: LF :: x).
    rewrite (dotRead_line _ _ Hp). rewrite <- app_assoc in IH. rewrite IH.
    cbn. rewrite <- app_assoc. reflexivity.
Qed.

Lemma ReadDotBytes_dotEncode lines more :
  Forall plain lines ->
  ReadDotBytes (dotEncode lines ++ more) = (unlinesLF lines, None, more).
Proof.
  intros H. unfold ReadDotBytes. rewrite (dotRead_dotEncode _ _ H). reflexivity.
Qed.

Lemma unlinesLF_nonempty lines : lines <> [] -> (0 <? length (unlinesLF lines))%nat = true.
Proof.
  destruct lines as [|l lines]; [congruence|]. intros _.
  apply Nat.ltb_lt. unfold unlinesLF. cbn [map concat].
  rewrite !length_app. cbn [length]. lia.
Qed.

Lemma emit_Some c r out rest :
  emit c r = Some (out, rest) -> exists out', r = Some (out', rest).
Proof.
  destruct r as [[o' r']|]; cbn; intros H; inversion H; subst.
  exists o'. reflexivity.
Qed.

(** A dot read that succeeds takes at least one byte. *)
Lemma dotRead_consumes inp : forall st out rest,
  st <> stateEOF ->
  dotRead st inp = Some (out, rest) ->
  (length rest < length inp)%nat.
Proof.
  induction inp as [|c inp IH]; intros st out rest Hst Hread.
  - destruct st; cbn in Hread; congruence.
  - assert (Hgo : forall st' o r,
               st' <> stateEOF ->
               dotRead st' inp = Some (o, r) ->
               (length r < S (length inp))%nat).
    { intros st' o r Hst' Hd. pose proof (IH _ _ _ Hst' Hd). lia. }
    assert (Hemit : forall st' c' o r,
               st' <> stateEOF ->
               emit c' (dotRead st' inp) = Some (o, r) ->
               (length r < S (length inp))%nat).
    { intros st' c' o r Hst' He. apply emit_Some in He as [o' Hd].
      apply (Hgo _ _ _ Hst' Hd). }
    assert (Hdata : forall o r,
               (if Ascii.eqb c CR then dotRead stateCR inp
                else if Ascii.eqb c LF then emit c (dotRead stateBeginLine inp)
                else emit c (dotRead stateData inp)) = Some (o, r) ->
               (length r < S (length inp))%nat).
    { intros o r Hd. destruct (Ascii.eqb c CR); [|destruct (Ascii.eqb c LF)];
        solve [ eapply Hgo; [|eassumption]; discriminate
              | eapply Hemit; [|eassumption]; discriminate ]. }
    assert (Hsaved : forall o r,
               emit CR
                 (if Ascii.eqb c CR then dotRead stateCR inp
                  else if Ascii.eqb c LF then emit c (dotRead stateBeginLine inp)
                  else emit c (dotRead stateData inp)) = Some (o, r) ->
               (length r < S (length inp))%nat).
    { intros o r He. apply emit_Some in He as [o' Hd]. apply (Hdata _ _ Hd). }
    cbn [length].
    destruct st; cbn [dotRead] in Hread; try congruence.
    + destruct (Ascii.eqb c DOT); [|destruct (Ascii.eqb c CR)];
        solve [ eapply Hgo; [|eassumption]; discriminate
              | eapply Hemit; [|eassumption]; discriminate ].
    + destruct (Ascii.eqb c CR); [|destruct (Ascii.eqb c LF)].
      * eapply Hgo; [|eassumption]; discriminate.
      * inversion Hread; subst. lia.
      * eapply Hemit; [|eassumption]; discriminate.
    + destruct (Ascii.eqb c LF).
      * inversion Hread; subst. lia.
      * apply (Hsaved _ _ Hread).
    + destruct (Ascii.eqb c LF).
      * eapply Hemit; [|eassumption]; discriminate.
      * apply (Hsaved _ _ Hread).
    + apply (Hdata _ _ Hread).
Qed.

Lemma ReadDotBytes_consumes inp body rest :
  ReadDotBytes inp = (body, None, rest) -> (length rest < length inp)%nat.
Proof.
  unfold ReadDotBytes. destruct (dotRead stateBeginLine inp) as [[b r]|] eqn:Hd.
  - intros H. inversion H; subst.
    eapply dotRead_consumes; [|exact Hd]. discriminate.
  - discriminate.
Qed.

Lemma splitLF_rest inp : forall l rest,
  splitLF inp = (l, Some rest) -> (length rest < length inp)%nat.
Proof.
  induction inp as [|c inp IH]; intros l rest H; cbn in H; [discriminate|].
  destruct (Ascii.eqb c LF).
  - inversion H; subst. cbn. lia.
  - destruct (splitLF inp) as [l' r'] eqn:Hs. inversion H; subst.
    pose proof (IH _ _ eq_refl). cbn. lia.
Qed.

(** [ReadLine] takes at least one byte from input that is not empty, and
    gives the empty line on empty input. *)
Lemma ReadLine_consumes inp line err rest :
  ReadLine inp = (line, err, rest) ->
  (inp = [] /\ line = "" /\ rest = [])
  \/ (length rest < length inp)%nat.
Proof.
  unfold ReadLine. destruct inp as [|c inp].
  - intros H. inversion H; subst. left. repeat split.
  - destruct (splitLF (c :: inp)) as [l [r|]] eqn:Hs; intros H; inversion H; subst.
    + right. apply (splitLF_rest _ _ _ Hs).
    + right. cbn. lia.
Qed.

End TextprotoFacts.

(** *** The session: one pass of the loop *)

Section SessionFacts.

Variable ParseAddress : string -> option Address.
Variable idGenerator : nat -> string.
Variable kFixedSize : N.

Local Abbreviation handleCommand := (handleCommand ParseAddress idGenerator kFixedSize).
Local Abbreviation commandIteration := (commandIteration ParseAddress idGenerator kFixedSize).
Local Abbreviation iteration := (iteration ParseAddress idGenerator kFixedSize).
Local Abbreviation command_loop := (command_loop ParseAddress idGenerator kFixedSize).
Local Abbreviation loop_end := (loop_end ParseAddress idGenerator kFixedSize).

Lemma iteration_in_data_mode s id l :
  isInDataMode (client l) = true -> iteration s id l = dataIteration s l.
Proof. intros H. unfold iteration. rewrite H. reflexivity. Qed.

Lemma iteration_reads_command s id l line err rest :
  isInDataMode (client l) = false ->
  Textproto.ReadLine (reader l) = (line, err, rest) ->
  iteration s id l = handleCommand s id (ParseCmd line) (withReader rest l).
Proof.
  intros Hmode Hread. unfold iteration, commandIteration.
  rewrite Hmode, Hread. reflexivity.
Qed.

Lemma verifyState_rejects x c :
  c ∉ sequenceTable (seq x) -> verifyState x c = Some "bad command sequence".
Proof.
  intros H. unfold verifyState. rewrite bool_decide_eq_false_2; [reflexivity|exact H].
Qed.

Lemma verifyState_accepts x c :
  c ∈ sequenceTable (seq x) -> verifyState x c = None.
Proof.
  intros H. unfold verifyState. rewrite bool_decide_eq_true_2; [reflexivity|exact H].
Qed.

Lemma handleCommand_rejected s id command l :
  Response command = "" ->
  Cmd command ∉ sequenceTable (seq (client l)) ->
  handleCommand s id command l = Continue (say kBadCommandSequence l).
Proof.
  intros Hresp Hnot. unfold handleCommand.
  rewrite Hresp, (verifyState_rejects _ _ Hnot). reflexivity.
Qed.

(** C8. A verb that the sequence table does not allow in the state of the
    session is answered with [503 Bad command sequence], and nothing else
    happens: the sequence state and the envelope under construction are as
    before, in every state of the session. *)
Theorem bad_sequence_changes_nothing s id command l :
  Response command = "" ->
  Cmd command ∉ sequenceTable (seq (client l)) ->
  exists l',
    handleCommand s id command l = Continue l'
    /\ writes (conn (client l'))
       = writes (conn (client l)) ++ ["503 Bad command sequence"]
    /\ seq (client l') = seq (client l)
    /\ envelopeData l' = envelopeData l.
Proof.
  intros Hresp Hnot. exists (say kBadCommandSequence l).
  rewrite (handleCommand_rejected _ _ _ _ Hresp Hnot). repeat split.
Qed.

(** The same at the level of the loop: the rejected line is consumed and the
    next pass reads the next command. *)
Lemma bad_sequence_iteration s id l line err rest :
  isInDataMode (client l) = false ->
  Textproto.ReadLine (reader l) = (line, err, rest) ->
  Response (ParseCmd line) = "" ->
  Cmd (ParseCmd line) ∉ sequenceTable (seq (client l)) ->
  iteration s id l = Continue (say kBadCommandSequence (withReader rest l)).
Proof.
  intros Hmode Hread Hresp Hnot.
  rewrite (iteration_reads_command _ _ _ _ _ _ Hmode Hread).
  apply handleCommand_rejected; assumption.
Qed.

Lemma lone_dot_is_empty_body rest :
  Textproto.ReadDotBytes (DOT :: CR :: LF :: rest) = ([], None, rest).
Proof. reflexivity. Qed.

Lemma dataIteration_empty s l rest :
  Textproto.ReadDotBytes (reader l) = ([], None, rest) ->
  dataIteration s l = Continue (withReader rest l).
Proof. intros H. unfold dataIteration. rewrite H. reflexivity. Qed.

Lemma dataIteration_sealed s l body rest :
  Textproto.ReadDotBytes (reader l) = (body, None, rest) ->
  body <> [] ->
  dataIteration s l
  = Continue
      (queueForDelivery s (setMessage body (envelopeData l))
         (withClient
            (MarkInPostDataMode
               (client (say (kMessageAccepted (Id (envelopeData l)))
                          (withEnvelope (setMessage body (envelopeData l))
                             (withReader rest l)))))
            (say (kMessageAccepted (Id (envelopeData l)))
               (withEnvelope (setMessage body (envelopeData l))
                  (withReader rest l))))).
Proof.
  intros H Hne. unfold dataIteration. rewrite H.
  destruct body as [|c body]; [congruence|]. reflexivity.
Qed.

(** The guard [len(dotBytes) > 0] of the data mode. A body that is read and
    is not empty is sealed into the envelope, answered with
    [250 OK: queued as <id>], moves the session to [POST_DATA] and is sent to
    the ingest stage when the server has a channel. An empty body, a lone dot
    line, is read too, but then nothing is sealed, written or sent and the
    session stays in data mode. *)
Lemma data_body_sealed_unless_empty s id l :
  isInDataMode (client l) = true ->
  (forall rest,
      reader l = DOT :: CR :: LF :: rest ->
      iteration s id l = Continue (withReader rest l))
  /\ (forall body rest,
      Textproto.ReadDotBytes (reader l) = (body, None, rest) ->
      body <> [] ->
      exists l',
        iteration s id l = Continue l'
        /\ envelopeData l' = setMessage body (envelopeData l)
        /\ writes (conn (client l'))
           = writes (conn (client l))
             ++ ["250 OK: queued as " +:+ Id (envelopeData l)]
        /\ seq (client l') = POST_DATA
        /\ channel l'
           = (if envelopeChannel s
              then channel l ++ [setMessage body (envelopeData l)]
              else channel l)
        /\ reader l' = rest).
Proof.
  intros Hmode. rewrite (iteration_in_data_mode _ _ _ Hmode). split.
  - intros rest Hr. apply dataIteration_empty. rewrite Hr.
    apply lone_dot_is_empty_body.
  - intros body rest Hread Hne. eexists. split.
    + apply (dataIteration_sealed _ _ _ _ Hread Hne).
    + unfold queueForDelivery. destruct (envelopeChannel s); repeat split.
Qed.

Lemma length_unlinesLF lines :
  length (Textproto.unlinesLF lines)
  = (length (concat lines) + length lines)%nat.
Proof.
  unfold Textproto.unlinesLF. induction lines as [|l lines IH]; [reflexivity|].
  cbn [map concat length]. rewrite !length_app, IH. cbn [length]. lia.
Qed.

Lemma length_unlinesCRLF lines :
  length (Textproto.unlinesCRLF lines)
  = (length (concat lines) + 2 * length lines)%nat.
Proof.
  unfold Textproto.unlinesCRLF. induction lines as [|l lines IH]; [reflexivity|].
  cbn [map concat length]. rewrite !length_app, IH. cbn [length]. lia.
Qed.

(** C6, as amended. The message of the envelope is the body as
    [ReadDotBytes] decodes it: the lines the client sent, the dot added to a
    line that starts with one removed, the end marker gone, and every line
    ended by a single line feed in place of its CRLF. It is never the body
    with its CRLF line ends. *)
Theorem message_is_body_with_line_feeds s id l lines rest :
  isInDataMode (client l) = true ->
  Forall Textproto.plain lines ->
  lines <> [] ->
  reader l = Textproto.dotEncode lines ++ rest ->
  exists l',
    iteration s id l = Continue l'
    /\ Message (envelopeData l') = Textproto.unlinesLF lines
    /\ Message (envelopeData l') <> Textproto.unlinesCRLF lines
    /\ reader l' = rest.
Proof.
  intros Hmode Hplain Hne Hr.
  assert (Hread : Textproto.ReadDotBytes (reader l)
                  = (Textproto.unlinesLF lines, None, rest)).
  { rewrite Hr. apply TextprotoFacts.ReadDotBytes_dotEncode. exact Hplain. }
  assert (Hbody : Textproto.unlinesLF lines <> []).
  { intros Hnil. pose proof (TextprotoFacts.unlinesLF_nonempty _ Hne) as Hlen.
    rewrite Hnil in Hlen. discriminate. }
  eexists. split.
  - rewrite (iteration_in_data_mode _ _ _ Hmode).
    apply (dataIteration_sealed _ _ _ _ Hread Hbody).
  - unfold queueForDelivery. destruct (envelopeChannel s); cbn; repeat split.
    all: intros Heq; apply (f_equal (@length ascii)) in Heq;
      rewrite length_unlinesLF, length_unlinesCRLF in Heq;
      destruct lines; [congruence|]; cbn [length] in Heq; lia.
Qed.

(** What [say] does to the session. *)
Lemma writes_say data l :
  writes (conn (client (say data l))) = writes (conn (client l)) ++ [data].
Proof. reflexivity. Qed.

Lemma isTLS_say data l : isTLS (client (say data l)) = isTLS (client l).
Proof. reflexivity. Qed.

Lemma remoteAddress_say data l :
  remoteAddress (client (say data l)) = remoteAddress (client l).
Proof. reflexivity. Qed.

Lemma seq_say data l : seq (client (say data l)) = seq (client l).
Proof. reflexivity. Qed.

Lemma readDeadline_say data l :
  readDeadline (conn (client (say data l))) = readDeadline (conn (client l)).
Proof. reflexivity. Qed.

(** The methods modelled from the specification leave the connection, the TLS
    flag and the address of the session alone. *)
Lemma markState_frame x c :
  conn (markState x c) = conn x
  /\ isTLS (markState x c) = isTLS x
  /\ remoteAddress (markState x c) = remoteAddress x
  /\ tlsConn (markState x c) = tlsConn x.
Proof. destruct c; repeat split. Qed.

Lemma reset_frame x :
  conn (reset x) = conn x /\ isTLS (reset x) = isTLS x.
Proof. split; reflexivity. Qed.

(** C7. The reply to an accepted EHLO, line by line as the code writes it: the
    one line whose code is followed by a space is the fourth, [250 8BITMIME];
    two or three hyphen lines follow it, and the last line of the reply has a
    hyphen after its code (the code under test; the specification wants the
    space line last). *)
Theorem EHLO_reply_ends_with_hyphen_line s id command l :
  Response command = "" ->
  Cmd command = EHLO ->
  EHLO ∈ sequenceTable (seq (client l)) ->
  exists l' final,
    handleCommand s id command l = Continue l'
    /\ writes (conn (client l'))
       = writes (conn (client l))
         ++ [ "250-" +:+ name s +:+ " Hello " +:+ remoteAddress (client l);
              "250-SIZE " +:+ decimal kFixedSize;
              "250-PIPELINING";
              "250 8BITMIME";
              "250-VRFY";
              "250-HELP" ]
         ++ (if negb (withTLS s) && negb (isTLS (client l))
             then ["250-STARTTLS"] else [])
    /\ List.last (writes (conn (client l'))) "" = final
    /\ terminalLine final = false
    /\ continuationLine final = true.
Proof.
  intros Hresp Hcmd Hok. unfold handleCommand.
  rewrite Hresp, Hcmd, (verifyState_accepts _ _ Hok).
  cbn [negb String.eqb]. cbv beta iota zeta.
  rewrite ?isTLS_say, ?remoteAddress_say.
  cbn [client withClient].
  destruct (markState_frame (client l) EHLO) as (Hconn & Htls & Haddr & _).
  rewrite Htls, Haddr.
  destruct (negb (withTLS s) && negb (isTLS (client l))).
  - eexists; exists "250-STARTTLS". split; [reflexivity|].
    rewrite !writes_say. cbn [client withClient]. rewrite Hconn.
    split; [|split; [|split; reflexivity]].
    + rewrite <- !app_assoc. reflexivity.
    + apply List.last_last.
  - eexists; exists "250-HELP". split; [reflexivity|].
    rewrite !writes_say. cbn [client withClient]. rewrite Hconn.
    split; [|split; [|split; reflexivity]].
    + rewrite <- !app_assoc. reflexivity.
    + apply List.last_last.
Qed.

(** The STARTTLS case as a whole. An accepted STARTTLS is not answered before
    the handshake: the session attaches the reader to the TLS socket and runs
    the TLS server handshake at once. When the handshake succeeds nothing has
    been written, the reader reads from the TLS socket and the session is
    marked as TLS; when it fails the session writes [221 Bye] and leaves the
    loop; on a server without a TLS configuration a ClientHello makes the
    goroutine panic, with nothing written. *)
Lemma STARTTLS_handshake s id command l :
  Response command = "" ->
  Cmd command = STARTTLS ->
  STARTTLS ∈ sequenceTable (seq (client l)) ->
  match Handshake (tlsConfig s) (fst (tlsServer (peer l))) with
  | HandshakeDone =>
      exists l',
        handleCommand s id command l = Continue l'
        /\ writes (conn (client l')) = writes (conn (client l))
        /\ reader l' = tlsInput (fst (tlsServer (peer l)))
        /\ tlsConn (client l') = Some (fst (tlsServer (peer l)))
        /\ isTLS (client l') = true
  | HandshakeError =>
      exists l',
        handleCommand s id command l = Break l'
        /\ writes (conn (client l')) = writes (conn (client l)) ++ ["221 Bye"]
  | HandshakePanic =>
      exists l',
        handleCommand s id command l = Panic l'
        /\ writes (conn (client l')) = writes (conn (client l))
  end.
Proof.
  intros Hresp Hcmd Hok. unfold handleCommand.
  rewrite Hresp, Hcmd, (verifyState_accepts _ _ Hok).
  cbn [negb String.eqb]. cbv beta iota zeta.
  cbn [peer withClient].
  destruct (tlsServer (peer l)) as [a more]. cbn [fst].
  destruct (Handshake (tlsConfig s) a).
  - eexists. split; [reflexivity|].
    destruct (hasInitiatedMailTransaction _); repeat split.
  - eexists. split; [reflexivity|]. reflexivity.
  - eexists. split; [reflexivity|]. reflexivity.
Qed.

(** The handshake as the server's configuration and the peer decide it: a
    server made with TLS never panics, and one made without it never
    completes a handshake. *)
Lemma Handshake_by_configuration config a :
  (config <> None -> Handshake config a <> HandshakePanic)
  /\ (config = None -> Handshake config a <> HandshakeDone).
Proof.
  unfold Handshake. destruct config as [c|]; split; intros H; try congruence.
  - destruct (handshakeOk a); discriminate.
  - destruct (clientHello a || handshakeOk a); discriminate.
Qed.

(** *** The flag [SecurelyDelivered] *)

(** RSET puts a fresh envelope in place, whose flag is off, and leaves the
    TLS state of the session as it is. *)
Lemma RSET_forgets_TLS s id command l :
  Response command = "" ->
  Cmd command = RSET ->
  RSET ∈ sequenceTable (seq (client l)) ->
  exists l',
    handleCommand s id command l = Continue l'
    /\ SecurelyDelivered (envelopeData l') = false
    /\ isTLS (client l') = isTLS (client l).
Proof.
  intros Hresp Hcmd Hok. unfold handleCommand.
  rewrite Hresp, Hcmd, (verifyState_accepts _ _ Hok).
  eexists. split; [reflexivity|]. split; reflexivity.
Qed.

(** No verb but STARTTLS and RSET touches the flag; MAIL FROM in particular
    leaves it as it finds it. *)
Lemma flag_set_only_by_STARTTLS_and_RSET s id command l :
  Cmd command <> STARTTLS ->
  Cmd command <> RSET ->
  SecurelyDelivered (envelopeData (after (handleCommand s id command l)))
  = SecurelyDelivered (envelopeData l).
Proof.
  intros Hs Hr. unfold handleCommand, verifyEmailAddress.
  destruct (negb (String.eqb (Response command) "")).
  - cbv zeta. destruct (Z.eqb _ _); reflexivity.
  - destruct (verifyState _ _); [reflexivity|].
    destruct (Cmd command); try congruence; split_flow.
Qed.

(** Once MAIL FROM has been accepted the sequence table lets no STARTTLS in,
    so from then on the flag of the envelope stays as it is until the envelope
    is sent on or RSET replaces it. *)
Lemma flag_fixed_once_mail_started s id command l :
  STARTTLS ∉ sequenceTable (seq (client l)) ->
  Cmd command <> RSET ->
  SecurelyDelivered (envelopeData (after (handleCommand s id command l)))
  = SecurelyDelivered (envelopeData l).
Proof.
  intros Htable Hrset.
  destruct (decide (Cmd command = STARTTLS)) as [Hs|Hs].
  - unfold handleCommand.
    destruct (negb (String.eqb (Response command) "")).
    + cbv zeta. destruct (Z.eqb _ _); reflexivity.
    + rewrite Hs, (verifyState_rejects _ _ Htable). reflexivity.
  - apply flag_set_only_by_STARTTLS_and_RSET; assumption.
Qed.

(** The envelope that data mode sends on has the flag of the envelope under
    construction. *)
Lemma sealed_flag_is_envelope_flag s l :
  SecurelyDelivered (envelopeData (after (dataIteration s l)))
  = SecurelyDelivered (envelopeData l).
Proof.
  unfold dataIteration.
  destruct (Textproto.ReadDotBytes (reader l)) as [[body err] rest].
  destruct err; [reflexivity|]. cbv zeta.
  destruct (0 <? length body)%nat; [|reflexivity].
  unfold queueForDelivery. destruct (envelopeChannel s); reflexivity.
Qed.

(** *** The count of rejected commands *)



(** A command that the parser rejects adds one, and the loop is left exactly
    when the count has come to five. *)
Lemma rejected_command_counts s id command l :
  Response command <> "" ->
  (0 <= totalCommandErrors l < 5)%Z ->
  handleCommand s id command l
  = (if (totalCommandErrors l =? 4)%Z then Break else Continue)
      (withErrors (totalCommandErrors l + 1) (say (Response command) l)).
Proof.
  intros Hresp Hrange. unfold handleCommand.
  apply String.eqb_neq in Hresp. rewrite Hresp. cbn [negb]. cbv zeta.
  cbn [totalCommandErrors withErrors say withClient].
  assert (Hw : int_wrap (totalCommandErrors l + 1) = (totalCommandErrors l + 1)%Z).
  { unfold int_wrap. rewrite Z.mod_small; lia. }
  rewrite Hw.
  destruct (Z.eqb_spec (totalCommandErrors l) 4) as [H4|H4].
  - rewrite H4. reflexivity.
  - destruct (Z.eqb_spec (totalCommandErrors l + 1) 5); [lia|reflexivity].
Qed.

(** *** The read deadline and the loop as a whole *)

Lemma handleCommand_keeps_deadline s id command l :
  readDeadline (conn (client (after (handleCommand s id command l))))
  = readDeadline (conn (client l)).
Proof.
  unfold handleCommand, verifyEmailAddress.
  destruct (negb (String.eqb (Response command) "")).
  - cbv zeta. destruct (Z.eqb _ _); reflexivity.
  - destruct (verifyState _ _); [reflexivity|].
    destruct (Cmd command); split_flow.
Qed.

Lemma dataIteration_keeps_deadline s l :
  readDeadline (conn (client (after (dataIteration s l))))
  = readDeadline (conn (client l)).
Proof.
  unfold dataIteration, queueForDelivery.
  destruct (Textproto.ReadDotBytes (reader l)) as [[body err] rest].
  split_flow.
Qed.

(** No pass of the loop sets the read deadline. *)
Lemma iteration_keeps_deadline s id l :
  readDeadline (conn (client (after (iteration s id l))))
  = readDeadline (conn (client l)).
Proof.
  unfold iteration, commandIteration. destruct (isInDataMode (client l)).
  - apply dataIteration_keeps_deadline.
  - destruct (Textproto.ReadLine (reader l)) as [[line err] rest].
    exact (handleCommand_keeps_deadline s id (ParseCmd line) (withReader rest l)).
Qed.

Lemma loop_end_S fuel s id l :
  loop_end (S fuel) s id l
  = match iteration s id l with
    | Continue l' => loop_end fuel s id l'
    | Break l' => Some (Break l')
    | Panic l' => Some (Panic l')
    end.
Proof. reflexivity. Qed.

(** The loop is left at a [break] or in a panic, never at a [continue]. *)
Lemma loop_end_not_Continue fuel s id : forall l l',
  loop_end fuel s id l <> Some (Continue l').
Proof.
  induction fuel as [|fuel IH]; intros l l'; [discriminate|].
  rewrite loop_end_S. destruct (iteration s id l); [apply IH|discriminate..].
Qed.

Lemma command_loop_Break fuel s id l l' :
  command_loop fuel s id l = Some l' <-> loop_end fuel s id l = Some (Break l').
Proof.
  unfold command_loop. destruct (loop_end fuel s id l) as [[x|x|x]|]; split;
    intros H; inversion H; reflexivity.
Qed.

Lemma command_loop_S fuel s id l :
  command_loop (S fuel) s id l
  = match iteration s id l with
    | Break l' => Some l'
    | Continue l' => command_loop fuel s id l'
    | Panic _ => None
    end.
Proof.
  unfold command_loop. rewrite loop_end_S.
  destruct (iteration s id l); reflexivity.
Qed.

(** The loop as a whole leaves the read deadline as the listener set it. *)
Lemma command_loop_keeps_deadline fuel s id : forall l l',
  command_loop fuel s id l = Some l' ->
  readDeadline (conn (client l')) = readDeadline (conn (client l)).
Proof.
  induction fuel as [|fuel IH]; intros l l' Hrun; [discriminate|].
  rewrite command_loop_S in Hrun.
  pose proof (iteration_keeps_deadline s id l) as Hstep.
  destruct (iteration s id l) as [l1|l1|l1]; cbn [after] in Hstep.
  - rewrite (IH _ _ Hrun). exact Hstep.
  - inversion Hrun; subst. exact Hstep.
  - discriminate.
Qed.

(** More fuel does not change where the loop ends. *)
Lemma command_loop_more_fuel fuel s id : forall l l' extra,
  command_loop fuel s id l = Some l' ->
  command_loop (fuel + extra) s id l = Some l'.
Proof.
  induction fuel as [|fuel IH]; intros l l' extra Hrun; [discriminate|].
  change (S fuel + extra)%nat with (S (fuel + extra)).
  rewrite command_loop_S in *.
  destruct (iteration s id l) as [l1|l1|l1]; [apply IH| |]; exact Hrun.
Qed.

End SessionFacts.

(** *** The loop ends *)

Section Termination.

Variable ParseAddress : string -> option Address.
Variable idGenerator : nat -> string.
Variable kFixedSize : N.

Local Abbreviation handleCommand := (handleCommand ParseAddress idGenerator kFixedSize).
Local Abbreviation iteration := (iteration ParseAddress idGenerator kFixedSize).
Local Abbreviation command_loop := (command_loop ParseAddress idGenerator kFixedSize).
Local Abbreviation loop_end := (loop_end ParseAddress idGenerator kFixedSize).

Lemma ParseCmd_empty_line_rejected : Response (ParseCmd "") <> "".
Proof. discriminate. Qed.

Lemma pending_withReader r l :
  pending (withReader r l)
  = (length r + list_sum (map (fun a => S (length (tlsInput a))) (peer l)))%nat.
Proof. reflexivity. Qed.

(** An accepted command reads nothing more, except STARTTLS, which swaps the
    reader for the input of the TLS start it uses up. *)
Lemma accepted_command_pending s id command l :
  Response command = "" ->
  match handleCommand s id command l with
  | Continue l' =>
      (pending l' <= pending l)%nat
      /\ totalCommandErrors l' = totalCommandErrors l
  | _ => True
  end.
Proof.
  intros Hresp. unfold handleCommand, verifyEmailAddress. rewrite Hresp.
  cbn [negb String.eqb]. cbv iota.
  destruct (verifyState _ _); [split; reflexivity|].
  destruct (Cmd command); cbv zeta; cbn [peer withClient];
    try (split; reflexivity).
  - destruct (negb (withTLS s) && negb _); split; reflexivity.
  - destruct (ParseAddress _); split; reflexivity.
  - destruct (ParseAddress _); [|split; reflexivity].
    destruct (To _); split; reflexivity.
  - unfold tlsServer. destruct (peer l) as [|a more] eqn:Hpeer.
    + unfold Handshake. destruct (tlsConfig s); exact I.
    + destruct (Handshake (tlsConfig s) a); [|exact I..].
      assert (Hp : (pending l
                    = length (reader l) + S (length (tlsInput a))
                      + list_sum (map (fun a => S (length (tlsInput a))) more))%nat).
      { unfold pending. rewrite Hpeer. cbn [map].
        change (list_sum (?x :: ?t)) with (x + list_sum t)%nat. lia. }
      destruct (negb _); (split; [|reflexivity]); rewrite Hp;
        unfold pending; cbn [reader peer withEnvelope withClient withReader withPeer]; lia.
Qed.

Lemma rejected_command_pending s id command l :
  Response command <> "" ->
  (0 <= totalCommandErrors l < 5)%Z ->
  match handleCommand s id command l with
  | Continue l' =>
      pending l' = pending l
      /\ totalCommandErrors l' = (totalCommandErrors l + 1)%Z
      /\ (totalCommandErrors l' < 5)%Z
  | _ => True
  end.
Proof.
  intros Hresp Hrange.
  rewrite (rejected_command_counts _ _ _ _ _ _ _ Hresp Hrange).
  destruct (Z.eqb_spec (totalCommandErrors l) 4); [exact I|].
  cbn [totalCommandErrors withErrors]. repeat split. lia.
Qed.

(** Each pass that does not leave the loop brings the session nearer to its
    end: it reads input, or uses up a TLS start, or counts one more rejected
    command. *)
Lemma iteration_progress s id l :
  (0 <= totalCommandErrors l < 5)%Z ->
  match iteration s id l with
  | Continue l' =>
      (0 <= totalCommandErrors l' < 5)%Z
      /\ (enoughFuel l' < enoughFuel l)%nat
  | _ => True
  end.
Proof.
  intros Hrange. unfold iteration, commandIteration.
  destruct (isInDataMode (client l)).
  - unfold dataIteration.
    destruct (Textproto.ReadDotBytes (reader l)) as [[body err] rest] eqn:Hread.
    destruct err as [e|]; [exact I|].
    apply TextprotoFacts.ReadDotBytes_consumes in Hread. cbv zeta.
    assert (Hlt : (enoughFuel (withReader rest l) < enoughFuel l)%nat).
    { unfold enoughFuel, pending. cbn [reader peer totalCommandErrors withReader]. lia. }
    destruct (0 <? length body)%nat; [|split; [exact Hrange|exact Hlt]].
    unfold queueForDelivery. destruct (envelopeChannel s);
      (split; [exact Hrange|exact Hlt]).
  - destruct (Textproto.ReadLine (reader l)) as [[line err] rest] eqn:Hread.
    apply TextprotoFacts.ReadLine_consumes in Hread.
    destruct (String.eqb_spec (Response (ParseCmd line)) "") as [Hresp|Hresp].
    + pose proof (accepted_command_pending s id (ParseCmd line) (withReader rest l) Hresp) as Hacc.
      destruct (handleCommand s id (ParseCmd line) (withReader rest l)) as [l'|l'|l'];
        [|exact I..].
      destruct Hacc as [Hpend Herr]. cbn [totalCommandErrors withReader] in Herr.
      destruct Hread as [(_ & Hline & _)|Hlt].
      * subst line. exfalso. exact (ParseCmd_empty_line_rejected Hresp).
      * rewrite pending_withReader in Hpend. unfold enoughFuel. rewrite Herr.
        split; [exact Hrange|]. unfold pending at 2. lia.
    + pose proof (rejected_command_pending s id (ParseCmd line) (withReader rest l) Hresp Hrange) as Hrej.
      destruct (handleCommand s id (ParseCmd line) (withReader rest l)) as [l'|l'|l'];
        [|exact I..].
      destruct Hrej as (Hpend & Herr & Hlt5). cbn [totalCommandErrors withReader] in Herr.
      rewrite pending_withReader in Hpend. unfold enoughFuel. rewrite Hpend, Herr.
      split; [lia|]. unfold pending.
      assert (length rest <= length (reader l))%nat.
      { destruct Hread as [(Hin & _ & Hrest)|Hlt]; [rewrite Hin, Hrest; lia|lia]. }
      lia.
Qed.

(** A pass panics only on a server without a TLS configuration. *)
Lemma handleCommand_panics_without_configuration s id command l l' :
  handleCommand s id command l = Panic l' -> tlsConfig s = None.
Proof.
  unfold handleCommand, verifyEmailAddress.
  destruct (negb (String.eqb (Response command) "")).
  - cbv zeta. destruct (Z.eqb _ _); discriminate.
  - destruct (verifyState _ _); [discriminate|].
    destruct (Cmd command); cbv zeta; cbn [peer withClient];
      try discriminate;
      try (destruct (tlsServer (peer l)) as [a more]; unfold Handshake;
           destruct (tlsConfig s); [|reflexivity];
           destruct (handshakeOk a); [|discriminate]);
      repeat lazymatch goal with
        | |- context [match ?x with _ => _ end] => destruct x
        end;
      discriminate.
Qed.

Lemma iteration_panics_without_configuration s id l l' :
  iteration s id l = Panic l' -> tlsConfig s = None.
Proof.
  unfold iteration, commandIteration. destruct (isInDataMode (client l)).
  - unfold dataIteration, queueForDelivery.
    destruct (Textproto.ReadDotBytes (reader l)) as [[body err] rest].
    destruct err; [discriminate|]. cbv zeta.
    destruct (0 <? length body)%nat; [|discriminate].
    destruct (envelopeChannel s); discriminate.
  - destruct (Textproto.ReadLine (reader l)) as [[line err] rest].
    apply handleCommand_panics_without_configuration.
Qed.

Lemma loop_end_ends s id fuel : forall l,
  (0 <= totalCommandErrors l < 5)%Z ->
  (enoughFuel l <= fuel)%nat ->
  exists f, loop_end fuel s id l = Some f.
Proof.
  induction fuel as [|fuel IH]; intros l Hrange Hfuel.
  - unfold enoughFuel in Hfuel. lia.
  - rewrite loop_end_S.
    pose proof (iteration_progress s id l Hrange) as Hstep.
    destruct (iteration s id l) as [l1|l1|l1].
    + destruct Hstep as [Hrange1 Hlt]. apply IH; [exact Hrange1|lia].
    + eexists. reflexivity.
    + eexists. reflexivity.
Qed.

Lemma command_loop_ends s id fuel : forall l,
  tlsConfig s <> None ->
  (0 <= totalCommandErrors l < 5)%Z ->
  (enoughFuel l <= fuel)%nat ->
  exists l', command_loop fuel s id l = Some l'.
Proof.
  induction fuel as [|fuel IH]; intros l Hconfig Hrange Hfuel.
  - unfold enoughFuel in Hfuel. lia.
  - rewrite command_loop_S.
    pose proof (iteration_progress s id l Hrange) as Hstep.
    destruct (iteration s id l) as [l1|l1|l1] eqn:Hit.
    + destruct Hstep as [Hrange1 Hlt]. apply IH; [exact Hconfig|exact Hrange1|lia].
    + exists l1. reflexivity.
    + exfalso. exact (Hconfig (iteration_panics_without_configuration _ _ _ _ Hit)).
Qed.

(** The loop ends: from a state the session can be in, with fewer than five
    rejected commands so far, [enoughFuel] passes bring the loop to a [break]
    or to a panic, whatever the peer sends; and on a server with a TLS
    configuration to a [break]. *)
Theorem command_loop_terminates s id l :
  (0 <= totalCommandErrors l < 5)%Z ->
  (exists f, loop_end (enoughFuel l) s id l = Some f)
  /\ (tlsConfig s <> None ->
      exists l', command_loop (enoughFuel l) s id l = Some l').
Proof.
  intros Hrange. split.
  - apply loop_end_ends; [exact Hrange|lia].
  - intros Hconfig. apply command_loop_ends; [exact Hconfig|exact Hrange|lia].
Qed.

End Termination.

(** *** The listener *)

Section ListenerFacts.

Variable maxClientConnections : Z.

Local Abbreviation acceptIteration := (acceptIteration maxClientConnections).
Local Abbreviation perform := (perform maxClientConnections).
Local Abbreviation schedule := (schedule maxClientConnections).

Lemma Lock_held g : clientMutex g = true -> Lock g = None.
Proof. intros H. unfold Lock. rewrite H. reflexivity. Qed.

Lemma Lock_free g :
  clientMutex g = false ->
  Lock g = Some {| clientConnections := clientConnections g; clientMutex := true;
                   totalClientConnections := totalClientConnections g |}.
Proof. intros H. unfold Lock. rewrite H. reflexivity. Qed.

(** While the mutex is held, the only event that goes on is an accept that
    fails, and it changes nothing. *)
Lemma perform_while_held e w :
  clientMutex (globals w) = true ->
  perform e w = None \/ perform e w = Some w.
Proof.
  intros Hheld. destruct e as [now [c|]|id x|id]; cbn [perform].
  - left. unfold acceptIteration. rewrite (Lock_held _ Hheld). reflexivity.
  - right. reflexivity.
  - left. unfold onGlobals, incrementConnectionCounter.
    rewrite (Lock_held _ Hheld). reflexivity.
  - left. unfold onGlobals, decrementConnectionCounter.
    rewrite (Lock_held _ Hheld). reflexivity.
Qed.

Lemma schedule_while_held es : forall w,
  clientMutex (globals w) = true -> schedule es w = w.
Proof.
  induction es as [|e es IH]; intros w Hheld; [reflexivity|].
  cbn [schedule].
  destruct (perform_while_held e w Hheld) as [H|H]; rewrite H; apply IH, Hheld.
Qed.

(** C3. A connection accepted at the cap (the code under test): the listener
    takes [clientMutex] and goes back to [AcceptTCP] without giving it up. The
    accepted socket is neither closed nor served; the next accepted connection
    makes the listener wait for the mutex it holds itself, the sessions that
    end wait for it too, so the count never comes down, and under every
    schedule the program stays as it is. The specification wants the socket
    closed and the accept loop to go on. *)
Theorem accept_at_cap_holds_mutex now c w :
  clientMutex (globals w) = false ->
  (maxClientConnections <= totalClientConnections (globals w))%Z ->
  exists w',
    acceptIteration now (Some c) w = Some w'
    /\ clientMutex (globals w') = true
    /\ unserved w' = unserved w ++ [c]
    /\ sessions w' = sessions w
    /\ totalClientConnections (globals w') = totalClientConnections (globals w)
    /\ (forall now' c', acceptIteration now' (Some c') w' = None)
    /\ (forall id, decrementConnectionCounter id (globals w') = None)
    /\ (forall es, schedule es w' = w').
Proof.
  intros Hfree Hcap. unfold acceptIteration at 1.
  rewrite (Lock_free _ Hfree). cbn [totalClientConnections].
  apply Z.leb_le in Hcap. rewrite Hcap.
  eexists. split; [reflexivity|]. cbn [globals clientMutex unserved sessions].
  do 4 (split; [reflexivity|]). split; [|split].
  - intros now' c'. reflexivity.
  - intros id0. reflexivity.
  - intros es. apply schedule_while_held. reflexivity.
Qed.

(** Below the cap the connection gets its read deadline, four minutes from
    the accept, and a session; the mutex is free again. *)
Lemma accept_below_cap now c w :
  clientMutex (globals w) = false ->
  (totalClientConnections (globals w) < maxClientConnections)%Z ->
  acceptIteration now (Some c) w
  = Some {| globals := globals w;
            sessions := sessions w
                        ++ [NewClientSession (SetReadDeadline (now + fourMinutes) c)];
            unserved := unserved w |}.
Proof.
  intros Hfree Hcap. unfold acceptIteration.
  rewrite (Lock_free _ Hfree). cbn [totalClientConnections].
  apply Z.leb_gt in Hcap. rewrite Hcap. unfold Unlock. cbn.
  destruct w as [[m k t] ss us]. cbn in *. subst k. reflexivity.
Qed.

End ListenerFacts.

(** C9, as amended. An admitted connection gets a read deadline of four
    minutes from the time of the accept, a duration written into the code and
    not read from the configuration; the session never sets the deadline
    again, so it stays where it was put at accept however many commands are
    read. *)
Theorem read_deadline_set_once ParseAddress idGenerator kFixedSize
    maxClientConnections now c w fuel s id l :
  clientMutex (globals w) = false ->
  (totalClientConnections (globals w) < maxClientConnections)%Z ->
  (exists w' x,
      acceptIteration maxClientConnections now (Some c) w = Some w'
      /\ sessions w' = sessions w ++ [x]
      /\ readDeadline (conn x) = (now + fourMinutes)%Z)
  /\ readDeadline
       (conn (client (after (iteration ParseAddress idGenerator kFixedSize s id l))))
     = readDeadline (conn (client l))
  /\ (forall l',
        command_loop ParseAddress idGenerator kFixedSize fuel s id l = Some l' ->
        readDeadline (conn (client l')) = readDeadline (conn (client l))).
Proof.
  intros Hfree Hcap. split; [|split].
  - rewrite (accept_below_cap _ _ _ _ Hfree Hcap).
    eexists; eexists. repeat split.
  - apply iteration_keeps_deadline.
  - intros l' Hrun. exact (command_loop_keeps_deadline _ _ _ _ _ _ _ _ Hrun).
Qed.

(** *** The JSON controller *)

Section ControllerFacts.
Import api.

Variable Data : Type.
Variable Marshal : Data -> bytes * option error.

Local Abbreviation JSON := (SimpleController_JSON Data Marshal).

Lemma body_Write b w : body (Write b w) = body w ++ b.
Proof. reflexivity. Qed.

Lemma header_Write b w : header (Write b w) = header w.
Proof. reflexivity. Qed.

Lemma JSON_marshalled c data w r content :
  Marshal data = (content, None) ->
  JSON c data w r
  = Write (if bytes_Equal content null then empty else content)
      (Header_Set "Content-Type" "application/json; charset=utf-8" w).
Proof.
  intros Hm. unfold SimpleController_JSON. rewrite Hm.
  destruct (bytes_Equal content null); reflexivity.
Qed.

(** C10. When [json.Marshal] succeeds, what [JSON] writes to the response is
    the marshalled content, or [{}] when the content is [null]; it is never
    [null], and the header [Content-Type] is
    [application/json; charset=utf-8] in both cases. *)
Theorem JSON_never_writes_null c data w r content :
  Marshal data = (content, None) ->
  exists out,
    body (JSON c data w r) = body w ++ out
    /\ out = (if bytes_Equal content null then empty else content)
    /\ out <> null
    /\ header (JSON c data w r) !! "Content-Type"
       = Some ["application/json; charset=utf-8"].
Proof.
  intros Hm. rewrite (JSON_marshalled _ _ _ _ _ Hm).
  eexists. split; [rewrite body_Write; reflexivity|]. split; [reflexivity|]. split.
  - unfold bytes_Equal. case_bool_decide as Hnull.
    + discriminate.
    + exact Hnull.
  - rewrite header_Write. unfold Header_Set. cbn [header].
    apply lookup_insert_eq.
Qed.

(** When [json.Marshal] fails nothing of the content is written: the reply
    is the error text with status 500. *)
Lemma JSON_marshal_error c data w r content e :
  Marshal data = (content, Some e) ->
  JSON c data w r
  = SimpleController_Error500 c e
      (Header_Set "Content-Type" "application/json; charset=utf-8" w) r.
Proof. intros Hm. unfold SimpleController_JSON. rewrite Hm. reflexivity. Qed.

End ControllerFacts.

(** *** Worked sessions *)

Section Worked.
Import Demo.

Local Abbreviation handleCommand := (handleCommand simpleParseAddress ids size).
Local Abbreviation iteration := (iteration simpleParseAddress ids size).
Local Abbreviation command_loop := (command_loop simpleParseAddress ids size).

(** Scenario 1 of section 8, with the message as the code stores it. *)
Example scenario_one :
  let r := session 7 plainServer
             (wire ["HELO x"; "MAIL FROM:<a@b>"; "RCPT TO:<c@d>"; "DATA";
                    "hi"; "."; "QUIT"]) [] in
  replies r
  = ["220 localhost ESMTP"; "250 localhost Hello 192.0.2.7:40000"; "250 OK";
     "250 OK"; "354 Start mail input; end with <CRLF>.<CRLF>";
     "250 OK: queued as id0"; "221 Bye"]
  /\ stored r
     = [ {| Id := "id0"; RemoteAddress := "192.0.2.7:40000";
            From := Some {| Name := ""; Addr := "a@b" |};
            To := Some {| Name := ""; Addr := "c@d" |};
            Forwards := []; Message := bytes_of "hi" ++ [LF];
            SecurelyDelivered := false |} ].
Proof. split; reflexivity. Qed.

(** Scenario 2 of section 8: the second recipient goes to [Forwards]. *)
Example scenario_two :
  let r := session 8 plainServer
             (wire ["HELO x"; "MAIL FROM:<a@b>"; "RCPT TO:<c@d>";
                    "RCPT TO:<e@f>"; "DATA"; "hi"; "."; "QUIT"]) [] in
  exists e,
    stored r = [e]
    /\ To e = Some {| Name := ""; Addr := "c@d" |}
    /\ Forwards e = [ {| Name := ""; Addr := "e@f" |} ].
Proof. vm_compute. eexists. repeat split. Qed.

(** Scenario 3 of section 8: DATA right after HELO. At the end of the input
    [ReadLine] gives empty lines, which the parser rejects five times. *)
Example scenario_three :
  let r := session 7 plainServer (wire ["HELO x"; "DATA"]) [] in
  replies r
  = ["220 localhost ESMTP"; "250 localhost Hello 192.0.2.7:40000";
     "503 Bad command sequence";
     kSyntaxError; kSyntaxError; kSyntaxError; kSyntaxError; kSyntaxError]
  /\ stored r = [].
Proof. split; reflexivity. Qed.

(** Scenario 5 of section 8: after RSET the stored envelope has the second
    sender only, and the next id. *)
Example scenario_five :
  let r := session 8 plainServer
             (wire ["HELO x"; "MAIL FROM:<old@b>"; "RSET"; "MAIL FROM:<a@b>";
                    "RCPT TO:<c@d>"; "DATA"; "hi"; "."; "QUIT"]) [] in
  exists e,
    stored r = [e]
    /\ Id e = "id1"
    /\ From e = Some {| Name := ""; Addr := "a@b" |}.
Proof. vm_compute. eexists. repeat split. Qed.

(** Scenario 6 of section 8. *)
Example scenario_six :
  let r := session 5 plainServer (wire ["FOO"; "FOO"; "FOO"; "FOO"; "FOO"]) [] in
  replies r
  = ["220 localhost ESMTP";
     kSyntaxError; kSyntaxError; kSyntaxError; kSyntaxError; kSyntaxError].
Proof. reflexivity. Qed.

(** C1. The code on a session that upgrades to TLS and then sends RSET before
    its mail: MAIL FROM comes after a successful STARTTLS, the channel is TLS
    to the end, and yet the envelope that is stored has [SecurelyDelivered]
    off, because RSET put a fresh envelope in place and only STARTTLS ever
    sets the flag. The specification wants the flag on. *)
Theorem envelope_after_RSET_on_TLS_not_secure :
  let r := session 9 secureServer (wire ["HELO x"; "STARTTLS"])
             [overTLS ["RSET"; "HELO x"; "MAIL FROM:<a@b>"; "RCPT TO:<c@d>";
                       "DATA"; "hi"; "."; "QUIT"]] in
  exists g l e,
    r = Finished g l
    /\ isTLS (client l) = true
    /\ channel l = [e]
    /\ From e = Some {| Name := ""; Addr := "a@b" |}
    /\ SecurelyDelivered e = false.
Proof.
  vm_compute. do 3 eexists. repeat split.
Qed.

(** On a server that was given a certificate ([withTLS], which the comment of
    [handleTCPConnection] reads as the client having connected with TLS) a
    session without STARTTLS stores its envelope with the flag off. *)
Example server_with_TLS_does_not_mark :
  let r := session 7 secureServer
             (wire ["HELO x"; "MAIL FROM:<a@b>"; "RCPT TO:<c@d>"; "DATA";
                    "hi"; "."; "QUIT"]) [] in
  exists e, stored r = [e] /\ SecurelyDelivered e = false.
Proof. vm_compute. eexists. split; reflexivity. Qed.

(** With STARTTLS and no RSET the flag is on. *)
Example STARTTLS_marks_current_envelope :
  let r := session 8 secureServer (wire ["HELO x"; "STARTTLS"])
             [overTLS ["HELO x"; "MAIL FROM:<a@b>"; "RCPT TO:<c@d>";
                       "DATA"; "hi"; "."; "QUIT"]] in
  exists e, stored r = [e] /\ SecurelyDelivered e = true.
Proof. vm_compute. eexists. split; reflexivity. Qed.

(** C4. The code on five rejected commands that are not in a row: two, then
    an accepted NOOP, then three more. The session leaves the loop right after
    the fifth rejection overall, with the last command unread, because
    [totalCommandErrors] is never set back. The specification counts
    rejections in a row. *)
Theorem five_rejections_in_total_end_session :
  let r := session 6 plainServer
             (wire ["FOO"; "FOO"; "NOOP"; "FOO"; "FOO"; "FOO"; "NOOP"]) [] in
  exists g l,
    r = Finished g l
    /\ replies r
       = ["220 localhost ESMTP"; kSyntaxError; kSyntaxError; "250 OK";
          kSyntaxError; kSyntaxError; kSyntaxError]
    /\ reader l = wire ["NOOP"]
    /\ totalCommandErrors l = 5%Z.
Proof.
  vm_compute. do 2 eexists. repeat split.
Qed.

End Worked.

(** *** Where the code departs from the specification, on concrete input *)

Section Departures.
Import Demo.

Local Abbreviation iteration := (iteration simpleParseAddress ids size).

(** C2. The code on an empty body (scenario 4 of section 8 without TLS): the
    client sends a lone dot line after DATA, then QUIT. The specification
    wants the envelope sealed with a message of length zero, answered with
    [250 OK: queued as <id>] and sent to the ingest stage. The code reads the
    empty body without error (the message has ended) but, under the guard
    [len(dotBytes) > 0] that its comment reads as the end of the message,
    writes no reply and stores nothing; the session stays in data mode, takes
    [QUIT] for the next body and ends when the input does, with no [221 Bye]. *)
Theorem empty_body_not_stored :
  let r := session 6 plainServer
             (wire ["HELO x"; "MAIL FROM:<a@b>"; "RCPT TO:<c@d>"; "DATA";
                    "."; "QUIT"]) [] in
  Textproto.ReadDotBytes (wire ["."; "QUIT"]) = ([], None, wire ["QUIT"])
  /\ replies r
     = ["220 localhost ESMTP"; "250 localhost Hello 192.0.2.7:40000"; "250 OK";
        "250 OK"; "354 Start mail input; end with <CRLF>.<CRLF>"]
  /\ stored r = []
  /\ (exists g l,
        r = Finished g l
        /\ seq (client l) = DATA_MODE
        /\ Message (envelopeData l) = []
        /\ reader l = []).
Proof.
  vm_compute. do 3 (split; [reflexivity|]). do 2 eexists. repeat split.
Qed.

(** C5. The code on a STARTTLS that is accepted and whose handshake succeeds,
    on a server with a certificate. The specification wants the reply
    [220 Ready to start TLS] before the handshake. The code answers every
    other verb, and its EHLO reply offers STARTTLS, but the STARTTLS case
    writes nothing: between the reply to HELO and the reply to the QUIT sent
    inside TLS there is no reply at all, and the session is TLS at its end. *)
Theorem STARTTLS_gets_no_220 :
  let r := session 3 secureServer (wire ["HELO x"; "STARTTLS"])
             [overTLS ["QUIT"]] in
  replies r
  = ["220 localhost ESMTP"; "250 localhost Hello 192.0.2.7:40000"; "221 Bye"]
  /\ ~ In "220 Ready to start TLS" (replies r)
  /\ (exists g l, r = Finished g l /\ isTLS (client l) = true).
Proof.
  vm_compute. split; [reflexivity|]. split; [intuition discriminate|].
  do 2 eexists. split; reflexivity.
Qed.

(** The other half of the STARTTLS case, on the server made without TLS,
    which is the one whose EHLO reply offers STARTTLS: the handshake runs on
    a [nil] configuration, so a ClientHello ends the session in a panic. No
    [221 Bye] is written, the deferred [Close] runs, and the count that the
    session raised is not lowered. *)
Example STARTTLS_without_configuration_panics :
  let r := session 3 plainServer (wire ["EHLO x"; "STARTTLS"])
             [overTLS ["QUIT"]] in
  In "250-STARTTLS" (replies r)
  /\ ~ In "221 Bye" (replies r)
  /\ (exists g l,
        r = Panicked g l
        /\ closed (conn (client l)) = true
        /\ totalClientConnections g = 1%Z).
Proof.
  vm_compute. split; [tauto|]. split; [intuition discriminate|].
  do 2 eexists. repeat split.
Qed.

(** A peer that sends no ClientHello after STARTTLS gets [221 Bye] on either
    server. *)
Example STARTTLS_without_ClientHello_gets_Bye :
  let peer0 := [{| clientHello := false; handshakeOk := false; tlsInput := [] |}] in
  List.last (replies (session 3 plainServer (wire ["HELO x"; "STARTTLS"]) peer0)) ""
  = "221 Bye"
  /\ List.last (replies (session 3 secureServer (wire ["HELO x"; "STARTTLS"]) peer0)) ""
     = "221 Bye".
Proof. split; reflexivity. Qed.

(** Against C6 as stated: the wire body [hi CRLF . CRLF] is stored as [hi]
    and a line feed, not as [hi CRLF]. *)
Lemma hi_body_stored_with_line_feed :
  let r := session 7 plainServer
             (wire ["HELO x"; "MAIL FROM:<a@b>"; "RCPT TO:<c@d>"; "DATA";
                    "hi"; "."; "QUIT"]) [] in
  exists e,
    stored r = [e]
    /\ Message e = ["h"%char; "i"%char; LF]
    /\ Message e <> bytes_of ("hi" +:+ CRLF).
Proof.
  vm_compute. eexists. split; [reflexivity|]. split; [reflexivity|]. discriminate.
Qed.

(** Against C9 as stated: a connection accepted at time 0 whose session reads
    a NOOP and answers it. Whenever after the accept the command is read, the
    deadline is not that time plus four minutes: it is still the deadline set
    at accept. *)
Lemma deadline_not_refreshed :
  exists w' x l',
    acceptIteration 64000 0 (Some socket) idle = Some w'
    /\ sessions w' = [x]
    /\ iteration plainServer (remoteAddr socket)
         {| client := x;
            envelopeData := envelope.NewEnvelope (ids 0) (remoteAddr socket);
            reader := wire ["NOOP"]; totalCommandErrors := 0; channel := [];
            nextId := 1; peer := [] |}
       = Continue l'
    /\ writes (conn (client l')) = ["250 OK"]
    /\ readDeadline (conn (client l')) = fourMinutes
    /\ forall now, (0 < now)%Z -> ~ refreshedAt now l'.
Proof.
  do 3 eexists. split; [reflexivity|]. split; [reflexivity|].
  split; [vm_compute; reflexivity|]. split; [reflexivity|]. split; [reflexivity|].
  intros now Hnow H. unfold refreshedAt in H.
  cbn [readDeadline conn client] in H. unfold fourMinutes in H. lia.
Qed.

End Departures.

(** *** The theorems at concrete sessions *)

Section Instances.
Import Demo.

Local Abbreviation handleCommand := (handleCommand simpleParseAddress ids size).
Local Abbreviation iteration := (iteration simpleParseAddress ids size).
Local Abbreviation command_loop := (command_loop simpleParseAddress ids size).

(** A body of one line in data mode is sealed with its line feed; a lone dot
    line is read and leaves the session as it was. *)
Lemma data_body_sealed_unless_empty_witness :
  let l := at_state DATA_MODE (wire ["hi"; "."; "QUIT"]) in
  let l0 := at_state DATA_MODE (wire ["."; "QUIT"]) in
  (isInDataMode (client l) = true /\ isInDataMode (client l0) = true)
  /\ (exists l',
        iteration plainServer (remoteAddr socket) l = Continue l'
        /\ seq (client l') = POST_DATA
        /\ writes (conn (client l')) = ["250 OK: queued as id0"]
        /\ channel l' = [setMessage ["h"%char; "i"%char; LF] (envelopeData l)])
  /\ iteration plainServer (remoteAddr socket) l0
     = Continue (withReader (wire ["QUIT"]) l0).
Proof.
  intros l l0. split; [split; reflexivity|].
  destruct (data_body_sealed_unless_empty simpleParseAddress ids size
              plainServer (remoteAddr socket) l eq_refl) as [_ Hseal].
  destruct (data_body_sealed_unless_empty simpleParseAddress ids size
              plainServer (remoteAddr socket) l0 eq_refl) as [Hempty _].
  split; [|exact (Hempty (wire ["QUIT"]) eq_refl)].
  destruct (Hseal ["h"%char; "i"%char; LF] (wire ["QUIT"]) eq_refl
              ltac:(discriminate)) as (l' & Hit & _ & Hw & Hseq & Hch & _).
  exists l'. repeat split; assumption.
Defined.

Lemma message_is_body_with_line_feeds_witness :
  let l := at_state DATA_MODE (Textproto.dotEncode [bytes_of "hi"; bytes_of ".x"]) in
  (isInDataMode (client l) = true
   /\ Forall Textproto.plain [bytes_of "hi"; bytes_of ".x"]
   /\ reader l = bytes_of ("hi" +:+ CRLF +:+ "..x" +:+ CRLF +:+ "." +:+ CRLF))
  /\ exists l',
       iteration plainServer (remoteAddr socket) l = Continue l'
       /\ Message (envelopeData l')
          = bytes_of "hi" ++ [LF] ++ bytes_of ".x" ++ [LF].
Proof.
  intros l.
  assert (Hplain : Forall Textproto.plain [bytes_of "hi"; bytes_of ".x"]).
  { repeat constructor; discriminate. }
  split; [split; [reflexivity|split; [exact Hplain|reflexivity]]|].
  destruct (message_is_body_with_line_feeds simpleParseAddress ids size
              plainServer (remoteAddr socket) l
              [bytes_of "hi"; bytes_of ".x"] [] eq_refl Hplain
              ltac:(discriminate) eq_refl) as (l' & Hit & Hmsg & _ & _).
  exists l'. split; assumption.
Defined.

Lemma STARTTLS_handshake_witness :
  let l := withPeer [overTLS ["EHLO x"]] (at_state HELO_OK []) in
  let command := {| Cmd := STARTTLS; Argument := ""; Response := "" |} in
  STARTTLS ∈ sequenceTable (seq (client l))
  /\ exists l',
       handleCommand secureServer (remoteAddr socket) command l = Continue l'
       /\ writes (conn (client l')) = []
       /\ reader l' = wire ["EHLO x"]
       /\ isTLS (client l') = true.
Proof.
  intros l command.
  assert (Hok : STARTTLS ∈ sequenceTable (seq (client l))).
  { apply (bool_decide_unpack _). vm_compute. exact I. }
  split; [exact Hok|].
  pose proof (STARTTLS_handshake simpleParseAddress ids size secureServer
                (remoteAddr socket) command l eq_refl eq_refl Hok) as Hcase.
  cbn [Handshake tlsConfig secureServer tlsServer peer l withPeer fst overTLS
       handshakeOk] in Hcase.
  destruct Hcase as (l' & Hit & Hw & Hr & _ & Htls).
  exists l'. repeat split; assumption.
Defined.

Lemma EHLO_reply_ends_with_hyphen_line_witness :
  let l := at_state GREETED [] in
  let command := ParseCmd "EHLO x" in
  (Response command = "" /\ Cmd command = EHLO
   /\ EHLO ∈ sequenceTable (seq (client l)))
  /\ exists l',
       handleCommand plainServer (remoteAddr socket) command l = Continue l'
       /\ writes (conn (client l'))
          = ["250-localhost Hello 192.0.2.7:40000"; "250-SIZE 10240000";
             "250-PIPELINING"; "250 8BITMIME"; "250-VRFY"; "250-HELP";
             "250-STARTTLS"]
       /\ terminalLine (List.last (writes (conn (client l'))) "") = false.
Proof.
  intros l command.
  assert (Hok : EHLO ∈ sequenceTable (seq (client l))).
  { apply (bool_decide_unpack _). vm_compute. exact I. }
  split; [split; [reflexivity|split; [reflexivity|exact Hok]]|].
  destruct (EHLO_reply_ends_with_hyphen_line simpleParseAddress ids size
              plainServer (remoteAddr socket) command l eq_refl eq_refl Hok)
    as (l' & final & Hit & Hw & Hlast & Hterm & _).
  exists l'. split; [exact Hit|]. split; [exact Hw|].
  rewrite Hlast. exact Hterm.
Defined.

Lemma bad_sequence_changes_nothing_witness :
  let l := at_state HELO_OK [] in
  let command := ParseCmd "DATA" in
  (Response command = "" /\ Cmd command ∉ sequenceTable (seq (client l)))
  /\ exists l',
       handleCommand plainServer (remoteAddr socket) command l = Continue l'
       /\ writes (conn (client l')) = ["503 Bad command sequence"]
       /\ seq (client l') = HELO_OK
       /\ envelopeData l' = envelopeData l.
Proof.
  intros l command.
  assert (Hnot : Cmd command ∉ sequenceTable (seq (client l))).
  { apply (bool_decide_unpack _). vm_compute. exact I. }
  split; [split; [reflexivity|exact Hnot]|].
  exact (bad_sequence_changes_nothing simpleParseAddress ids size plainServer
           (remoteAddr socket) command l eq_refl Hnot).
Defined.

Lemma accept_at_cap_holds_mutex_witness :
  (clientMutex (globals oneLive) = false
   /\ (1 <= totalClientConnections (globals oneLive))%Z)
  /\ exists w',
       acceptIteration 1 0 (Some socket) oneLive = Some w'
       /\ clientMutex (globals w') = true
       /\ unserved w' = [socket]
       /\ closed socket = false
       /\ acceptIteration 1 1 (Some socket) w' = None
       /\ schedule 1 [SessionEnds "192.0.2.9:1"; Accept 2 (Some socket)] w' = w'.
Proof.
  assert (Hcap : (1 <= totalClientConnections (globals oneLive))%Z).
  { vm_compute. discriminate. }
  split; [split; [reflexivity|exact Hcap]|].
  destruct (accept_at_cap_holds_mutex 1 0 socket oneLive eq_refl Hcap)
    as (w' & Hacc & Hheld & Hun & _ & _ & Hnext & _ & Hsched).
  exists w'. repeat split; try assumption.
  - apply Hnext.
  - apply Hsched.
Defined.

Lemma read_deadline_set_once_witness :
  (clientMutex (globals idle) = false
   /\ (totalClientConnections (globals idle) < 64000)%Z)
  /\ (exists w' x,
         acceptIteration 64000 5 (Some socket) idle = Some w'
         /\ sessions w' = [x]
         /\ readDeadline (conn x) = (5 + fourMinutes)%Z)
  /\ forall l',
       command_loop 3 plainServer (remoteAddr socket)
         (at_state GREETED (wire ["NOOP"; "HELO x"; "QUIT"])) = Some l' ->
       readDeadline (conn (client l')) = fourMinutes.
Proof.
  assert (Hcap : (totalClientConnections (globals idle) < 64000)%Z).
  { vm_compute. reflexivity. }
  split; [split; [reflexivity|exact Hcap]|].
  destruct (read_deadline_set_once simpleParseAddress ids size 64000 5 socket
              idle 3 plainServer (remoteAddr socket)
              (at_state GREETED (wire ["NOOP"; "HELO x"; "QUIT"]))
              eq_refl Hcap) as (Hacc & _ & Hloop).
  split; [exact Hacc|exact Hloop].
Defined.

Lemma JSON_never_writes_null_witness :
  marshalNumber None = (api.null, None)
  /\ api.body (api.SimpleController_JSON (option N) marshalNumber
                 api.mkSimpleController None freshResponse getRequest)
     = bytes_of "{}"
  /\ api.header (api.SimpleController_JSON (option N) marshalNumber
                   api.mkSimpleController None freshResponse getRequest)
       !! "Content-Type"
     = Some ["application/json; charset=utf-8"].
Proof.
  split; [reflexivity|].
  destruct (JSON_never_writes_null (option N) marshalNumber api.mkSimpleController
              None freshResponse getRequest api.null eq_refl)
    as (out & Hbody & Hout & _ & Hhdr).
  split; [|exact Hhdr]. rewrite Hbody, Hout. reflexivity.
Defined.

End Instances.

(** *** What the loop keeps from pass to pass *)

Section LoopFacts.

Variable ParseAddress : string -> option Address.
Variable idGenerator : nat -> string.
Variable kFixedSize : N.

Local Abbreviation handleCommand := (handleCommand ParseAddress idGenerator kFixedSize).
Local Abbreviation iteration := (iteration ParseAddress idGenerator kFixedSize).
Local Abbreviation command_loop := (command_loop ParseAddress idGenerator kFixedSize).

(** What every pass keeps while the loop goes on, and hands over when it
    leaves, holds where the loop ends. *)
Lemma command_loop_keeps (P Q : Loop -> Prop) s id :
  (forall l, P l ->
     match iteration s id l with
     | Continue l' => P l'
     | Break l' => Q l'
     | Panic _ => True
     end) ->
  forall fuel l l', P l -> command_loop fuel s id l = Some l' -> Q l'.
Proof.
  intros Hstep. induction fuel as [|fuel IH]; intros l l' HP Hrun; [discriminate|].
  rewrite command_loop_S in Hrun. specialize (Hstep l HP).
  destruct (iteration s id l) as [l1|l1|l1].
  - exact (IH _ _ Hstep Hrun).
  - inversion Hrun; subst. exact Hstep.
  - discriminate.
Qed.

(** The same for what a pass keeps whether it goes on or leaves. *)
Lemma command_loop_keeps_after (P : Loop -> Prop) s id :
  (forall l, P l -> P (after (iteration s id l))) ->
  forall fuel l l', P l -> command_loop fuel s id l = Some l' -> P l'.
Proof.
  intros Hstep. apply (command_loop_keeps P P). intros l HP.
  specialize (Hstep l HP). destruct (iteration s id l); solve [exact Hstep | exact I].
Qed.







End LoopFacts.

(** *** TLS and the flag, over a whole session *)

Section SecurityFacts.

Variable ParseAddress : string -> option Address.
Variable idGenerator : nat -> string.
Variable kFixedSize : N.

Local Abbreviation handleCommand := (handleCommand ParseAddress idGenerator kFixedSize).
Local Abbreviation iteration := (iteration ParseAddress idGenerator kFixedSize).
Local Abbreviation command_loop := (command_loop ParseAddress idGenerator kFixedSize).

(** On a session that is not TLS after a command, it was not TLS before, and
    the command has left the flag of the envelope off if it was off. *)
Lemma handleCommand_plain s id command l :
  isTLS (client (after (handleCommand s id command l))) = false ->
  isTLS (client l) = false
  /\ (SecurelyDelivered (envelopeData l) = false ->
      SecurelyDelivered (envelopeData (after (handleCommand s id command l))) = false).
Proof.
  unfold handleCommand, verifyEmailAddress.
  destruct (negb (String.eqb (Response command) "")).
  - cbv zeta. destruct (Z.eqb _ _); cbn; auto.
  - destruct (verifyState _ _); [cbn; auto|].
    destruct (markState_frame (client l) (Cmd command)) as (_ & Htls & _ & _).
    destruct (Cmd command); split_flow; cbn in *; auto; try discriminate.
Qed.

Lemma dataIteration_plain s l :
  isTLS (client (after (dataIteration s l))) = isTLS (client l)
  /\ SecurelyDelivered (envelopeData (after (dataIteration s l)))
     = SecurelyDelivered (envelopeData l).
Proof.
  unfold dataIteration, queueForDelivery.
  destruct (Textproto.ReadDotBytes (reader l)) as [[body err] rest].
  split; split_flow.
Qed.


(** X10. TLS is never taken back: once the session is marked as TLS it stays
    so to its end, whatever the client sends, RSET and a second STARTTLS
    included. *)
Theorem TLS_never_taken_back fuel s id l l' :
  isTLS (client l) = true ->
  command_loop fuel s id l = Some l' ->
  isTLS (client l') = true.
Proof.
  intros Htls.
  apply (command_loop_keeps_after ParseAddress idGenerator kFixedSize
           (fun x => isTLS (client x) = true)); [|exact Htls].
  intros x Hx. unfold iteration, commandIteration.
  destruct (isInDataMode (client x)).
  - rewrite (proj1 (dataIteration_plain s x)). exact Hx.
  - destruct (Textproto.ReadLine (reader x)) as [[line err] rest].
    destruct (isTLS (client (after (handleCommand s id (ParseCmd line)
                                      (withReader rest x))))) eqn:Hafter;
      [reflexivity|].
    destruct (handleCommand_plain s id (ParseCmd line) (withReader rest x) Hafter)
      as [Hbefore _].
    cbn [client withReader] in Hbefore. congruence.
Qed.

End SecurityFacts.

(** *** Reading from the wire *)

Section WireFacts.
Import Textproto.

Variable ParseAddress : string -> option Address.
Variable idGenerator : nat -> string.
Variable kFixedSize : N.

Local Abbreviation handleCommand := (handleCommand ParseAddress idGenerator kFixedSize).
Local Abbreviation iteration := (iteration ParseAddress idGenerator kFixedSize).

(** Lines without the end marker after them are not a body. *)
Lemma dotRead_unterminated lines :
  Forall plain lines ->
  dotRead stateBeginLine (concat (map (fun l => stuff l ++ [CR; LF]) lines)) = None.
Proof.
  induction 1 as [|line lines Hp _ IH]; [reflexivity|].
  cbn [map concat]. rewrite <- app_assoc.
  change ([CR; LF] ++ ?x) with (CR :: LF :: x).
  rewrite (TextprotoFacts.dotRead_line _ _ Hp), IH. reflexivity.
Qed.

(** X11. A body that is cut off is not stored: when the input ends after whole
    lines of the body and before the end marker, the session leaves the loop
    without a reply and without sending anything on, however much of the body
    had arrived. *)
Theorem truncated_body_not_stored s id l lines :
  isInDataMode (client l) = true ->
  Forall plain lines ->
  reader l = concat (map (fun b => stuff b ++ [CR; LF]) lines) ->
  exists l',
    iteration s id l = Break l'
    /\ writes (conn (client l')) = writes (conn (client l))
    /\ channel l' = channel l
    /\ envelopeData l' = envelopeData l.
Proof.
  intros Hmode Hplain Hr. unfold iteration. rewrite Hmode.
  unfold dataIteration, ReadDotBytes. rewrite Hr, (dotRead_unterminated _ Hplain).
  eexists. split; [reflexivity|]. repeat split.
Qed.

Lemma splitLF_line line rest :
  Forall (fun c => c <> LF) line ->
  splitLF (line ++ LF :: rest) = (line, Some rest).
Proof.
  induction 1 as [|c line Hc _ IH]; [reflexivity|].
  cbn [app splitLF]. rewrite (TextprotoFacts.eqb_ne _ _ Hc), IH. reflexivity.
Qed.

Lemma dropCR_snoc line : dropCR (line ++ [CR]) = line.
Proof.
  unfold dropCR. rewrite rev_app_distr. cbn [rev app].
  rewrite Ascii.eqb_refl. apply rev_involutive.
Qed.

Lemma dropCR_plain line : plain line -> dropCR line = line.
Proof.
  intros Hp. unfold dropCR. destruct (rev line) as [|c l'] eqn:Hrev; [reflexivity|].
  assert (Hin : In c line).
  { apply in_rev. rewrite Hrev. left. reflexivity. }
  unfold plain in Hp. rewrite List.Forall_forall in Hp.
  destruct (Hp c Hin) as [Hcr _]. rewrite (TextprotoFacts.eqb_ne _ _ Hcr).
  reflexivity.
Qed.

Lemma plain_no_LF line : plain line -> Forall (fun c => c <> LF) line.
Proof.
  unfold plain. intros H. eapply List.Forall_impl; [|exact H].
  intros c [_ Hlf]. exact Hlf.
Qed.

Lemma ReadLine_CRLF line rest :
  plain line ->
  ReadLine (line ++ CR :: LF :: rest) = (string_of line, None, rest).
Proof.
  intros Hp. unfold ReadLine.
  destruct (line ++ CR :: LF :: rest) as [|c inp] eqn:Hinp.
  { destruct line; discriminate. }
  rewrite <- Hinp.
  change (line ++ CR :: LF :: rest) with (line ++ [CR] ++ LF :: rest).
  rewrite app_assoc, splitLF_line.
  - rewrite dropCR_snoc. reflexivity.
  - apply Forall_app. split; [exact (plain_no_LF _ Hp)|].
    constructor; [discriminate|constructor].
Qed.

Lemma ReadLine_LF line rest :
  plain line ->
  ReadLine (line ++ LF :: rest) = (string_of line, None, rest).
Proof.
  intros Hp. unfold ReadLine.
  destruct (line ++ LF :: rest) as [|c inp] eqn:Hinp.
  { destruct line; discriminate. }
  rewrite <- Hinp, (splitLF_line _ _ (plain_no_LF _ Hp)), (dropCR_plain _ Hp).
  reflexivity.
Qed.

(** X12. A command line is taken whole and alone: whether the client ends it
    with CRLF or with a bare line feed, the session handles the command on
    that line, without its line end, and leaves what follows it for the next
    pass, so commands sent in one packet are handled one by one. *)
Theorem command_line_taken_alone s id l line rest :
  isInDataMode (client l) = false ->
  plain line ->
  (reader l = line ++ CR :: LF :: rest \/ reader l = line ++ LF :: rest) ->
  iteration s id l
  = handleCommand s id (ParseCmd (string_of line)) (withReader rest l).
Proof.
  intros Hmode Hp Hr. unfold iteration, commandIteration. rewrite Hmode.
  destruct Hr as [Hr|Hr]; rewrite Hr.
  - rewrite (ReadLine_CRLF _ _ Hp). reflexivity.
  - rewrite (ReadLine_LF _ _ Hp). reflexivity.
Qed.

End WireFacts.

(** *** The connection table over a session *)

Section TableFacts.

Lemma int_wrap_small z :
  (- 2 ^ 63 <= z < 2 ^ 63)%Z -> int_wrap z = z.
Proof. intros H. unfold int_wrap. rewrite Z.mod_small; lia. Qed.

Lemma incrementConnectionCounter_free id x g :
  clientMutex g = false ->
  incrementConnectionCounter id x g
  = Some {| clientConnections := <[id := x]> (clientConnections g);
            clientMutex := false;
            totalClientConnections := int_wrap (totalClientConnections g + 1) |}.
Proof. intros H. unfold incrementConnectionCounter, Lock. rewrite H. reflexivity. Qed.

Lemma decrementConnectionCounter_free id g :
  clientMutex g = false ->
  decrementConnectionCounter id g
  = Some {| clientConnections := delete id (clientConnections g);
            clientMutex := false;
            totalClientConnections := int_wrap (totalClientConnections g - 1) |}.
Proof. intros H. unfold decrementConnectionCounter, Lock. rewrite H. reflexivity. Qed.

(** X2. The table and the count over the life of one connection: after
    [incrementConnectionCounter] the session is found under its address and
    the count is one more; [decrementConnectionCounter] for the same address
    then takes the entry out and brings the count back, and when the address
    was not in the table before, the package variables are as they were. *)
Theorem increment_then_decrement id x g :
  clientMutex g = false ->
  (- 2 ^ 63 <= totalClientConnections g < 2 ^ 63 - 1)%Z ->
  exists g1 g2,
    incrementConnectionCounter id x g = Some g1
    /\ clientConnections g1 !! id = Some x
    /\ totalClientConnections g1 = (totalClientConnections g + 1)%Z
    /\ decrementConnectionCounter id g1 = Some g2
    /\ clientConnections g2 !! id = None
    /\ totalClientConnections g2 = totalClientConnections g
    /\ clientMutex g2 = false
    /\ (clientConnections g !! id = None -> g2 = g).
Proof.
  intros Hfree Hrange.
  rewrite (incrementConnectionCounter_free _ _ _ Hfree).
  eexists; eexists. split; [reflexivity|].
  cbn [clientConnections totalClientConnections].
  split; [apply lookup_insert_eq|].
  split; [apply int_wrap_small; lia|].
  rewrite decrementConnectionCounter_free by reflexivity.
  split; [reflexivity|].
  cbn [clientConnections totalClientConnections clientMutex].
  rewrite (int_wrap_small (totalClientConnections g + 1)) by lia.
  rewrite int_wrap_small by lia.
  replace (totalClientConnections g + 1 - 1)%Z with (totalClientConnections g) by lia.
  split; [apply lookup_delete_eq|]. split; [reflexivity|]. split; [reflexivity|].
  intros Hnew. rewrite delete_insert_eq, (delete_id _ _ Hnew).
  destruct g as [m k t]. cbn in *. subst k. reflexivity.
Qed.

(** X3. A connection that shares its address with a live one: the table has
    one entry per address, so the second session takes the place of the first
    in the table while the count goes to two, and when either of them ends the
    entry is gone although one connection is still alive. *)
Theorem shared_address_loses_entry id x1 x2 g :
  clientMutex g = false ->
  (- 2 ^ 63 <= totalClientConnections g < 2 ^ 63 - 2)%Z ->
  exists ga gb gc,
    incrementConnectionCounter id x1 g = Some ga
    /\ incrementConnectionCounter id x2 ga = Some gb
    /\ clientConnections gb !! id = Some x2
    /\ totalClientConnections gb = (totalClientConnections g + 2)%Z
    /\ decrementConnectionCounter id gb = Some gc
    /\ clientConnections gc !! id = None
    /\ totalClientConnections gc = (totalClientConnections g + 1)%Z.
Proof.
  intros Hfree Hrange.
  rewrite (incrementConnectionCounter_free _ _ _ Hfree).
  eexists; eexists; eexists. split; [reflexivity|].
  rewrite incrementConnectionCounter_free by reflexivity.
  split; [reflexivity|].
  cbn [clientConnections totalClientConnections].
  rewrite (int_wrap_small (totalClientConnections g + 1)) by lia.
  split; [apply lookup_insert_eq|].
  split; [rewrite int_wrap_small; lia|].
  rewrite decrementConnectionCounter_free by reflexivity.
  split; [reflexivity|].
  cbn [clientConnections totalClientConnections].
  split; [apply lookup_delete_eq|].
  rewrite (int_wrap_small (totalClientConnections g + 1 + 1)) by lia.
  rewrite int_wrap_small; lia.
Qed.

End TableFacts.

Section OutcomeFacts.

Variable ParseAddress : string -> option Address.
Variable idGenerator : nat -> string.
Variable kFixedSize : N.
Variable domainName : string.

Local Abbreviation handleCommand := (handleCommand ParseAddress idGenerator kFixedSize).
Local Abbreviation iteration := (iteration ParseAddress idGenerator kFixedSize).
Local Abbreviation loop_end := (loop_end ParseAddress idGenerator kFixedSize).
Local Abbreviation handleTCPConnection :=
  (handleTCPConnection ParseAddress idGenerator kFixedSize domainName).

Lemma handleCommand_keeps_closed s id command l :
  closed (conn (client (after (handleCommand s id command l))))
  = closed (conn (client l)).
Proof.
  unfold handleCommand, verifyEmailAddress.
  destruct (negb (String.eqb (Response command) "")).
  - cbv zeta. destruct (Z.eqb _ _); reflexivity.
  - destruct (verifyState _ _); [reflexivity|].
    destruct (Cmd command); split_flow.
Qed.

Lemma dataIteration_keeps_closed s l :
  closed (conn (client (after (dataIteration s l))))
  = closed (conn (client l)).
Proof.
  unfold dataIteration, queueForDelivery.
  destruct (Textproto.ReadDotBytes (reader l)) as [[body err] rest].
  split_flow.
Qed.

(** No pass of the loop closes the socket: [Close] is deferred to the return
    of [handleTCPConnection]. *)
Lemma iteration_keeps_closed s id l :
  closed (conn (client (after (iteration s id l))))
  = closed (conn (client l)).
Proof.
  unfold iteration, commandIteration. destruct (isInDataMode (client l)).
  - apply dataIteration_keeps_closed.
  - destruct (Textproto.ReadLine (reader l)) as [[line err] rest].
    exact (handleCommand_keeps_closed s id (ParseCmd line) (withReader rest l)).
Qed.

Lemma loop_end_keeps_closed fuel s id : forall l f,
  loop_end fuel s id l = Some f ->
  closed (conn (client (after f))) = closed (conn (client l)).
Proof.
  induction fuel as [|fuel IH]; intros l f Hrun; [discriminate|].
  rewrite loop_end_S in Hrun.
  pose proof (iteration_keeps_closed s id l) as Hstep.
  destruct (iteration s id l) as [l1|l1|l1]; cbn [after] in Hstep.
  - rewrite (IH _ _ Hrun). exact Hstep.
  - inversion Hrun; subst. exact Hstep.
  - inversion Hrun; subst. exact Hstep.
Qed.

(** The loop ends in a panic only on a server without a TLS configuration. *)
Lemma loop_end_panics_without_configuration fuel s id : forall l l',
  loop_end fuel s id l = Some (Panic l') -> tlsConfig s = None.
Proof.
  induction fuel as [|fuel IH]; intros l l' Hrun; [discriminate|].
  rewrite loop_end_S in Hrun.
  destruct (iteration s id l) as [l1|l1|l1] eqn:Hit.
  - exact (IH _ _ Hrun).
  - discriminate.
  - exact (iteration_panics_without_configuration _ _ _ _ _ _ _ Hit).
Qed.

(** X1. The ways [handleTCPConnection] ends, and what each leaves of the
    socket and of the connection table. [g1] is the table as the session
    makes it when it raises the count, [meanwhile g1] the table as the other
    goroutines have it when the loop of this session ends.
    - The greeting cannot be written: the session returns at once, the socket
      closed, the package variables untouched.
    - The session waits at [incrementConnectionCounter]: the mutex was held.
    - The loop panics (STARTTLS on a server without a TLS configuration): the
      deferred [Close] runs, but [decrementConnectionCounter] does not, so the
      count stays raised.
    - The session waits at [decrementConnectionCounter]: the mutex is held by
      then, although it was free when the session raised the count; the
      deferred [Close] has not run and the socket is as it was.
    - The session returns after the loop: the socket is closed, the count is
      one less than the other goroutines left it, the entry of the session is
      out of the table and the mutex is free; when no other goroutine touched
      the package variables, the count is what it was before the session. *)
Theorem session_end_and_connection_table fuel s g meanwhile x input peer0 n0 :
  (- 2 ^ 63 <= totalClientConnections g < 2 ^ 63 - 1)%Z ->
  let id := remoteAddr (conn x) in
  let g1 := default g (incrementConnectionCounter id
                         (fst (writeData x (kGreeting domainName))) g) in
  match handleTCPConnection fuel s g meanwhile x input peer0 n0 with
  | GreetingFailed g' x' =>
      writeFails (conn x) = true
      /\ g' = g
      /\ closed (conn x') = true
      /\ writes (conn x') = writes (conn x) ++ [kGreeting domainName]
  | Waiting => writeFails (conn x) = false /\ clientMutex g = true
  | Unfinished => True
  | Panicked g' l =>
      tlsConfig s = None
      /\ closed (conn (client l)) = true
      /\ totalClientConnections g1 = (totalClientConnections g + 1)%Z
      /\ g' = meanwhile g1
  | WaitingAtEnd g' l =>
      clientMutex g = false
      /\ clientMutex (meanwhile g1) = true
      /\ g' = meanwhile g1
      /\ closed (conn (client l)) = closed (conn x)
  | Finished g' l =>
      clientMutex (meanwhile g1) = false
      /\ closed (conn (client l)) = true
      /\ totalClientConnections g'
         = int_wrap (totalClientConnections (meanwhile g1) - 1)
      /\ clientConnections g' = delete id (clientConnections (meanwhile g1))
      /\ clientMutex g' = false
      /\ (meanwhile g1 = g1 ->
          totalClientConnections g' = totalClientConnections g
          /\ clientConnections g' = delete id (clientConnections g))
  end.
Proof.
  intros Hrange id g1. subst id g1.
  unfold handleTCPConnection, writeData. cbn [fst].
  destruct (writeFails (conn x)) eqn:Hw.
  - repeat split.
  - destruct (clientMutex g) eqn:Hfree.
    + unfold incrementConnectionCounter, Lock. rewrite Hfree. split; reflexivity.
    + rewrite (incrementConnectionCounter_free _ _ _ Hfree).
      unfold default. cbn [from_option]. unfold id.
      match goal with
      | |- context [loop_end ?f ?s0 ?i ?l0] =>
          destruct (loop_end f s0 i l0) as [[l1|l1|l1]|] eqn:Hrun
      end; [exact I| | |exact I].
      * pose proof (loop_end_keeps_closed _ _ _ _ _ Hrun) as Hclosed.
        cbn [after client conn setConn record closed] in Hclosed.
        destruct (clientMutex (meanwhile _)) eqn:Hthen.
        -- unfold decrementConnectionCounter, Lock. rewrite Hthen.
           repeat split. exact Hclosed.
        -- rewrite (decrementConnectionCounter_free _ _ Hthen).
           cbn [clientConnections totalClientConnections clientMutex].
           do 5 (split; [reflexivity|]).
           intros Hsame. rewrite Hsame.
           cbn [clientConnections totalClientConnections].
           rewrite (int_wrap_small (totalClientConnections g + 1)) by lia.
           rewrite int_wrap_small by lia.
           split; [lia|apply delete_insert_eq].
      * split; [exact (loop_end_panics_without_configuration _ _ _ _ _ Hrun)|].
        split; [reflexivity|]. split; [|reflexivity].
        cbn [totalClientConnections]. apply int_wrap_small. lia.
Qed.

End OutcomeFacts.

(** *** More on the listener *)

Section AdmissionFacts.

Variable maxClientConnections : Z.

Local Abbreviation acceptIteration := (acceptIteration maxClientConnections).
Local Abbreviation perform := (perform maxClientConnections).
Local Abbreviation schedule := (schedule maxClientConnections).

(** X13. The cap is checked against the count that sessions raise after
    their greeting, and the listener itself never raises it: connections
    accepted one after the other before any of their sessions has started all
    get a session, however many they are and whatever the cap, as long as the
    count was below the cap when the first came. *)
Theorem burst_gets_sessions_whole (arrivals : list (Z * Conn)) w :
  clientMutex (globals w) = false ->
  (totalClientConnections (globals w) < maxClientConnections)%Z ->
  schedule (map (fun a => Accept (fst a) (Some (snd a))) arrivals) w
  = {| globals := globals w;
       sessions := sessions w ++ map sessionFor arrivals;
       unserved := unserved w |}.
Proof.
  revert w. induction arrivals as [|[now c] arrivals IH]; intros w Hfree Hcap.
  - cbn. rewrite app_nil_r. destruct w; reflexivity.
  - cbn [map schedule perform fst snd].
    rewrite (accept_below_cap _ _ _ _ Hfree Hcap).
    rewrite IH by assumption.
    cbn [globals sessions unserved]. rewrite <- app_assoc. reflexivity.
Qed.

(** X14. The mutex is lost in one way only: if a step of the program starts
    with the mutex free and ends with it held, the step is the listener taking
    a connection while the count is at the cap or over it. Sessions that start
    or end, accepts below the cap and accepts that fail all give the mutex
    back. *)
Theorem mutex_lost_only_at_cap e w w' :
  clientMutex (globals w) = false ->
  perform e w = Some w' ->
  clientMutex (globals w') = true ->
  exists now c,
    e = Accept now (Some c)
    /\ (maxClientConnections <= totalClientConnections (globals w))%Z.
Proof.
  intros Hfree Hstep Hheld. destruct e as [now [c|]|id x|id]; cbn [perform] in Hstep.
  - exists now, c. split; [reflexivity|].
    unfold acceptIteration in Hstep. rewrite (Lock_free _ Hfree) in Hstep.
    cbn [totalClientConnections] in Hstep.
    destruct (Z.leb_spec maxClientConnections (totalClientConnections (globals w)))
      as [Hle|Hlt]; [exact Hle|].
    inversion Hstep; subst. cbn in Hheld. discriminate.
  - inversion Hstep; subst. congruence.
  - unfold onGlobals in Hstep.
    rewrite (incrementConnectionCounter_free _ _ _ Hfree) in Hstep.
    inversion Hstep; subst. cbn in Hheld. discriminate.
  - unfold onGlobals in Hstep.
    rewrite (decrementConnectionCounter_free _ _ Hfree) in Hstep.
    inversion Hstep; subst. cbn in Hheld. discriminate.
Qed.

End AdmissionFacts.

(** *** The server record *)

Section ServerFacts.

Variable LoadX509KeyPair : string -> string -> option (string * string).

(** X15. [NewTCPServer] fails in one case only, when TLS is asked for and the
    key pair does not load; without TLS the paths of the certificate and the
    key are not looked at. A server that is made has a TLS configuration
    exactly when it was asked for with TLS, and keeps the address, port and
    name it was given. *)
Theorem NewTCPServer_fails_only_on_key_pair ip port serverName certPath keyPath
    withTLS0 channel0 :
  (NewTCPServer LoadX509KeyPair ip port serverName certPath keyPath withTLS0 channel0
   = None
   <-> withTLS0 = true /\ LoadX509KeyPair certPath keyPath = None)
  /\ forall s,
       NewTCPServer LoadX509KeyPair ip port serverName certPath keyPath withTLS0
         channel0 = Some s ->
       (tlsConfig s <> None <-> withTLS s = true)
       /\ (withTLS0 = true -> tlsConfig s = LoadX509KeyPair certPath keyPath)
       /\ withTLS s = withTLS0
       /\ localAddr s = ip /\ localPort s = port /\ name s = serverName
       /\ envelopeChannel s = channel0.
Proof.
  unfold NewTCPServer. destruct withTLS0.
  - destruct (LoadX509KeyPair certPath keyPath) as [cert|] eqn:Hload.
    + split.
      * split; [discriminate|]. intros [_ H]. discriminate.
      * intros s Hs. inversion Hs; subst. cbn. repeat split; congruence.
    + split.
      * split; [intros _; split; reflexivity|reflexivity].
      * intros s Hs. discriminate.
  - split.
    + split; [discriminate|]. intros [H _]. discriminate.
    + intros s Hs. inversion Hs; subst. cbn. repeat split; congruence.
Qed.

End ServerFacts.

(** *** More on the JSON controller *)

Section ControllerErrorFacts.
Import api.

Variable Data : Type.
Variable Marshal : Data -> bytes * option error.

Local Abbreviation JSON := (SimpleController_JSON Data Marshal).

(** X16. When [json.Marshal] fails, [JSON] on a response not yet started
    answers with status 500 and the text of the error and a line feed as the
    body ([Item not found] for [io.EOF]); the content type it had set to JSON
    is replaced by plain text, and nothing of the content is written. *)
Theorem JSON_marshal_error_is_500 c data w r content e :
  Marshal data = (content, Some e) ->
  status w = None ->
  status (JSON c data w r) = Some 500%Z
  /\ header (JSON c data w r) !! "Content-Type"
     = Some ["text/plain; charset=utf-8"]
  /\ header (JSON c data w r) !! "X-Content-Type-Options" = Some ["nosniff"]
  /\ body (JSON c data w r)
     = body w
       ++ bytes_of (if String.eqb e io_EOF then "Item not found" else e)
       ++ [LF].
Proof.
  intros Hm Hs. unfold SimpleController_JSON. rewrite Hm.
  unfold SimpleController_Error500.
  destruct (String.eqb e io_EOF);
    unfold http_Error, Write, WriteHeader, Header_Set; cbn [header status body];
    rewrite Hs; repeat split;
    rewrite ?lookup_insert_eq; try reflexivity;
    rewrite lookup_insert_ne by discriminate; apply lookup_insert_eq.
Qed.

(** X17. When [json.Marshal] succeeds, [JSON] touches no header but
    [Content-Type], sends status 200 on a response not yet started, and
    leaves a status that was already sent as it is. *)
Theorem JSON_success_touches_content_type_only c data w r content :
  Marshal data = (content, None) ->
  (forall key, key <> "Content-Type" ->
     api.header (api.SimpleController_JSON Data Marshal c data w r) !! key
     = api.header w !! key)
  /\ api.status (api.SimpleController_JSON Data Marshal c data w r)
     = match api.status w with Some code => Some code | None => Some 200%Z end.
Proof.
  intros Hm. unfold SimpleController_JSON. rewrite Hm.
  destruct (bytes_Equal content null);
    unfold Write, WriteHeader, Header_Set; cbn [header status body];
    (split; [intros key Hkey; apply lookup_insert_ne; congruence|reflexivity]).
Qed.

End ControllerErrorFacts.

(** *** Every command is answered *)

Section ReplyFacts.

Variable ParseAddress : string -> option Address.
Variable idGenerator : nat -> string.
Variable kFixedSize : N.

Local Abbreviation handleCommand := (handleCommand ParseAddress idGenerator kFixedSize).
Local Abbreviation iteration := (iteration ParseAddress idGenerator kFixedSize).

Lemma length_writes_say data l :
  length (writes (conn (client (say data l))))
  = S (length (writes (conn (client l)))).
Proof. rewrite writes_say, length_app. cbn [length]. lia. Qed.

(** A command that the parser rejects, that is out of sequence, or that is
    not STARTTLS, is answered. *)
Lemma handleCommand_answers s id command l :
  Response command <> ""
  \/ Cmd command ∉ sequenceTable (seq (client l))
  \/ Cmd command <> STARTTLS ->
  (length (writes (conn (client l)))
   < length (writes (conn (client (after (handleCommand s id command l))))))%nat.
Proof.
  intros Hcase. unfold handleCommand, verifyEmailAddress.
  destruct (String.eqb_spec (Response command) "") as [Hresp|Hresp]; cbn [negb].
  - destruct Hcase as [Hcase|Hcase]; [contradiction|].
    destruct (verifyState (client l) (Cmd command)) eqn:Hverify;
      [cbn [after]; rewrite length_writes_say; lia|].
    destruct Hcase as [Hcase|Hcase].
    { rewrite (verifyState_rejects _ _ Hcase) in Hverify. discriminate. }
    destruct (markState_frame (client l) (Cmd command)) as (Hconn & _).
    assert (Hlen : length (writes (conn (client
                      (withClient (markState (client l) (Cmd command)) l))))
                   = length (writes (conn (client l)))).
    { cbn [client withClient]. rewrite Hconn. reflexivity. }
    destruct (Cmd command); try contradiction; cbv zeta;
      repeat lazymatch goal with
        | |- context [match ?x with _ => _ end] => destruct x
        end;
      cbn [after]; rewrite ?length_writes_say;
      cbn [client withClient withEnvelope freshEnvelope withNextId conn reset
           setMailTransaction setSeq] in *;
      rewrite ?Hconn; lia.
  - cbv zeta. destruct (Z.eqb _ _); cbn [after client withErrors];
      rewrite length_writes_say; lia.
Qed.

(** An accepted STARTTLS is answered only when the handshake fails. *)
Lemma handleCommand_STARTTLS_writes s id command l :
  Response command = "" ->
  Cmd command = STARTTLS ->
  STARTTLS ∈ sequenceTable (seq (client l)) ->
  writes (conn (client (after (handleCommand s id command l))))
  = writes (conn (client l))
    ++ match Handshake (tlsConfig s) (fst (tlsServer (peer l))) with
       | HandshakeError => [kClosingConnection]
       | _ => []
       end.
Proof.
  intros Hresp Hcmd Hseq.
  pose proof (STARTTLS_handshake ParseAddress idGenerator kFixedSize
                s id command l Hresp Hcmd Hseq) as Hcase.
  revert Hcase. destruct (Handshake (tlsConfig s) (fst (tlsServer (peer l)))).
  - intros (l' & Hit & Hw & _). rewrite Hit. cbn [after].
    rewrite Hw, app_nil_r. reflexivity.
  - intros (l' & Hit & Hw). rewrite Hit. cbn [after]. exact Hw.
  - intros (l' & Hit & Hw). rewrite Hit. cbn [after].
    rewrite Hw, app_nil_r. reflexivity.
Qed.

(** X8. Every command line the loop reads gets at least one reply, be it
    rejected by the parser, out of sequence, or carried out, with one
    exception: a STARTTLS that is in sequence. That one is answered only when
    the handshake fails, with [221 Bye]; when the handshake succeeds, or
    panics, nothing is written for it. *)
Theorem every_command_is_answered s id l line err rest :
  isInDataMode (client l) = false ->
  Textproto.ReadLine (reader l) = (line, err, rest) ->
  let command := ParseCmd line in
  let before := writes (conn (client l)) in
  let after_it := writes (conn (client (after (iteration s id l)))) in
  (Response command <> ""
   \/ Cmd command ∉ sequenceTable (seq (client l))
   \/ Cmd command <> STARTTLS ->
   (length before < length after_it)%nat)
  /\ (Response command = ""
      /\ Cmd command ∈ sequenceTable (seq (client l))
      /\ Cmd command = STARTTLS ->
      after_it
      = before ++ match Handshake (tlsConfig s) (fst (tlsServer (peer l))) with
                  | HandshakeError => [kClosingConnection]
                  | _ => []
                  end).
Proof.
  intros Hmode Hread command before after_it. subst command before after_it.
  rewrite (iteration_reads_command ParseAddress idGenerator kFixedSize
             s id l line err rest Hmode Hread).
  split.
  - intros Hcase.
    exact (handleCommand_answers s id (ParseCmd line) (withReader rest l) Hcase).
  - intros (Hresp & Hseq & Hcmd). rewrite Hcmd in Hseq.
    exact (handleCommand_STARTTLS_writes s id (ParseCmd line) (withReader rest l)
             Hresp Hcmd Hseq).
Qed.

End ReplyFacts.

(** *** The properties at concrete sessions *)

Section MoreInstances.
Import Demo Inputs.

Local Abbreviation handleCommand := (handleCommand simpleParseAddress ids size).
Local Abbreviation iteration := (iteration simpleParseAddress ids size).
Local Abbreviation command_loop := (command_loop simpleParseAddress ids size).





Lemma TLS_never_taken_back_witness :
  isTLS (client (upgraded (wire ["HELO x"; "RSET"; "STARTTLS"]))) = true
  /\ exists l',
       command_loop 3 secureServer (remoteAddr socket)
         (upgraded (wire ["HELO x"; "RSET"; "STARTTLS"])) = Some l'
       /\ isTLS (client l') = true.
Proof.
  split; [reflexivity|].
  destruct (command_loop 3 secureServer (remoteAddr socket)
              (upgraded (wire ["HELO x"; "RSET"; "STARTTLS"])))
    as [l'|] eqn:Hrun; [|vm_compute in Hrun; discriminate].
  exists l'. split; [reflexivity|].
  exact (TLS_never_taken_back simpleParseAddress ids size 3 secureServer
           (remoteAddr socket) (upgraded (wire ["HELO x"; "RSET"; "STARTTLS"]))
           l' eq_refl Hrun).
Defined.

Lemma truncated_body_not_stored_witness :
  let lines := [bytes_of "hi"; bytes_of ".x"] in
  let l := at_state DATA_MODE (bytes_of ("hi" +:+ CRLF +:+ "..x" +:+ CRLF)) in
  (isInDataMode (client l) = true /\ Forall Textproto.plain lines)
  /\ exists l',
       iteration plainServer (remoteAddr socket) l = Break l'
       /\ writes (conn (client l')) = []
       /\ channel l' = [].
Proof.
  intros lines l.
  assert (Hplain : Forall Textproto.plain lines).
  { repeat constructor; discriminate. }
  split; [split; [reflexivity|exact Hplain]|].
  destruct (truncated_body_not_stored simpleParseAddress ids size plainServer
              (remoteAddr socket) l lines eq_refl Hplain eq_refl)
    as (l' & Hit & Hw & Hch & _).
  exists l'. repeat split; assumption.
Defined.

Lemma command_line_taken_alone_witness :
  let line := bytes_of "NOOP" in
  let rest := wire ["QUIT"] in
  let l := greeted (line ++ LF :: rest) in
  (isInDataMode (client l) = false /\ Textproto.plain line)
  /\ exists l',
       iteration plainServer (remoteAddr socket) l = Continue l'
       /\ writes (conn (client l')) = ["250 OK"]
       /\ reader l' = rest.
Proof.
  intros line rest l.
  assert (Hplain : Textproto.plain line).
  { repeat constructor; discriminate. }
  split; [split; [reflexivity|exact Hplain]|].
  rewrite (command_line_taken_alone simpleParseAddress ids size plainServer
             (remoteAddr socket) l line rest eq_refl Hplain
             (or_intror eq_refl)).
  eexists. split; [vm_compute; reflexivity|]. split; reflexivity.
Defined.

Lemma every_command_is_answered_witness :
  let l := at_state FROM_OK (wire ["STARTTLS"]) in
  (isInDataMode (client l) = false
   /\ Textproto.ReadLine (reader l) = ("STARTTLS", None, [])
   /\ Cmd (ParseCmd "STARTTLS") ∉ sequenceTable (seq (client l)))
  /\ (0 < length (writes (conn (client
             (after (iteration plainServer (remoteAddr socket) l))))))%nat.
Proof.
  intros l.
  assert (Hout : Cmd (ParseCmd "STARTTLS") ∉ sequenceTable (seq (client l))).
  { apply (bool_decide_unpack _). vm_compute. exact I. }
  split; [split; [reflexivity|split; [reflexivity|exact Hout]]|].
  destruct (every_command_is_answered simpleParseAddress ids size plainServer
              (remoteAddr socket) l "STARTTLS" None [] eq_refl eq_refl)
    as [Hanswered _].
  exact (Hanswered (or_intror (or_introl Hout))).
Defined.

Lemma increment_then_decrement_witness :
  (clientMutex noConnections = false
   /\ (- 2 ^ 63 <= totalClientConnections noConnections < 2 ^ 63 - 1)%Z)
  /\ exists g1,
       incrementConnectionCounter "192.0.2.7:40000" (NewClientSession socket)
         noConnections = Some g1
       /\ totalClientConnections g1 = 1%Z
       /\ decrementConnectionCounter "192.0.2.7:40000" g1 = Some noConnections.
Proof.
  assert (Hrange : (- 2 ^ 63 <= totalClientConnections noConnections < 2 ^ 63 - 1)%Z).
  { vm_compute. split; [discriminate|reflexivity]. }
  split; [split; [reflexivity|exact Hrange]|].
  destruct (increment_then_decrement "192.0.2.7:40000" (NewClientSession socket)
              noConnections eq_refl Hrange)
    as (g1 & g2 & Hinc & _ & Htot & Hdec & _ & _ & _ & Hback).
  exists g1. split; [exact Hinc|]. split; [exact Htot|].
  rewrite Hdec, (Hback (lookup_empty _)). reflexivity.
Defined.

Lemma shared_address_loses_entry_witness :
  (clientMutex noConnections = false
   /\ (- 2 ^ 63 <= totalClientConnections noConnections < 2 ^ 63 - 2)%Z)
  /\ exists ga gb gc,
       incrementConnectionCounter "192.0.2.7:40000" (NewClientSession socket)
         noConnections = Some ga
       /\ incrementConnectionCounter "192.0.2.7:40000" (NewClientSession socket2)
            ga = Some gb
       /\ decrementConnectionCounter "192.0.2.7:40000" gb = Some gc
       /\ clientConnections gc !! "192.0.2.7:40000" = None
       /\ totalClientConnections gc = 1%Z.
Proof.
  assert (Hrange : (- 2 ^ 63 <= totalClientConnections noConnections < 2 ^ 63 - 2)%Z).
  { vm_compute. split; [discriminate|reflexivity]. }
  split; [split; [reflexivity|exact Hrange]|].
  destruct (shared_address_loses_entry "192.0.2.7:40000" (NewClientSession socket)
              (NewClientSession socket2) noConnections eq_refl Hrange)
    as (ga & gb & gc & Ha & Hb & _ & _ & Hc & Hgone & Htot).
  exists ga, gb, gc. repeat split; assumption.
Defined.

Lemma session_end_and_connection_table_witness :
  (- 2 ^ 63 <= totalClientConnections noConnections < 2 ^ 63 - 1)%Z
  /\ (exists g' l,
        session 7 plainServer mail [] = Finished g' l
        /\ closed (conn (client l)) = true
        /\ totalClientConnections g' = 0%Z
        /\ clientMutex g' = false)
  /\ (exists g' l,
        handleTCPConnection simpleParseAddress ids size "localhost" 7
          plainServer noConnections listenerAtCap (NewClientSession socket)
          mail [] 0 = WaitingAtEnd g' l
        /\ clientMutex g' = true
        /\ closed (conn (client l)) = false).
Proof.
  assert (Hrange : (- 2 ^ 63 <= totalClientConnections noConnections < 2 ^ 63 - 1)%Z).
  { vm_compute. split; [discriminate|reflexivity]. }
  split; [exact Hrange|]. split.
  - pose proof (session_end_and_connection_table simpleParseAddress ids size
                  "localhost" 7 plainServer noConnections (fun g => g)
                  (NewClientSession socket) mail [] 0 Hrange) as Hout.
    unfold session. revert Hout.
    destruct (handleTCPConnection simpleParseAddress ids size "localhost" 7
                plainServer noConnections (fun g => g) (NewClientSession socket)
                mail [] 0)
      as [g' x'| | |g' l|g' l|g' l] eqn:Hrun; try (vm_compute in Hrun; discriminate).
    intros (_ & Hclosed & _ & _ & Hfree & Hsame).
    destruct (Hsame eq_refl) as [Htot _].
    exists g', l. repeat split; assumption.
  - pose proof (session_end_and_connection_table simpleParseAddress ids size
                  "localhost" 7 plainServer noConnections listenerAtCap
                  (NewClientSession socket) mail [] 0 Hrange) as Hout.
    revert Hout.
    destruct (handleTCPConnection simpleParseAddress ids size "localhost" 7
                plainServer noConnections listenerAtCap (NewClientSession socket)
                mail [] 0)
      as [g' x'| | |g' l|g' l|g' l] eqn:Hrun; try (vm_compute in Hrun; discriminate).
    intros (_ & Hheld & Hg & Hclosed).
    exists g', l. split; [reflexivity|]. split; [rewrite Hg; exact Hheld|].
    exact Hclosed.
Defined.

Lemma burst_gets_sessions_whole_witness :
  (clientMutex (globals idle) = false
   /\ (totalClientConnections (globals idle) < 1)%Z)
  /\ length (sessions (schedule 1 [Accept 0 (Some socket); Accept 1 (Some socket2);
                                  Accept 2 (Some socket)] idle)) = 3%nat.
Proof.
  assert (Hcap : (totalClientConnections (globals idle) < 1)%Z).
  { vm_compute. reflexivity. }
  split; [split; [reflexivity|exact Hcap]|].
  pose proof (burst_gets_sessions_whole 1
                [(0%Z, socket); (1%Z, socket2); (2%Z, socket)] idle eq_refl Hcap)
    as Hall.
  cbn [map fst snd] in Hall. rewrite Hall. reflexivity.
Defined.

Lemma mutex_lost_only_at_cap_witness :
  exists w',
    perform 1 (Accept 0 (Some socket2)) oneLive = Some w'
    /\ clientMutex (globals oneLive) = false
    /\ clientMutex (globals w') = true
    /\ (1 <= totalClientConnections (globals oneLive))%Z.
Proof.
  destruct (perform 1 (Accept 0 (Some socket2)) oneLive) as [w'|] eqn:Hstep;
    [|vm_compute in Hstep; discriminate].
  assert (Hheld : clientMutex (globals w') = true).
  { revert Hstep. vm_compute. intros H. inversion H. reflexivity. }
  exists w'. split; [reflexivity|]. split; [reflexivity|]. split; [exact Hheld|].
  destruct (mutex_lost_only_at_cap 1 (Accept 0 (Some socket2)) oneLive w'
              eq_refl Hstep Hheld) as (now & c & _ & Hcap).
  exact Hcap.
Defined.

Lemma JSON_marshal_error_is_500_witness :
  (marshalFails tt = ([], Some "json: unsupported type")
   /\ api.status freshResponse = None)
  /\ api.status (api.SimpleController_JSON unit marshalFails api.mkSimpleController
                   tt freshResponse getRequest) = Some 500%Z
  /\ api.body (api.SimpleController_JSON unit marshalFails api.mkSimpleController
                 tt freshResponse getRequest)
     = bytes_of "json: unsupported type" ++ [LF].
Proof.
  split; [split; reflexivity|].
  destruct (JSON_marshal_error_is_500 unit marshalFails api.mkSimpleController tt
              freshResponse getRequest [] "json: unsupported type" eq_refl eq_refl)
    as (Hst & _ & _ & Hbody).
  split; [exact Hst|exact Hbody].
Defined.

Lemma JSON_success_touches_content_type_only_witness :
  marshalNumber (Some 7%N) = (bytes_of "7", None)
  /\ api.header (api.SimpleController_JSON (option N) marshalNumber
                   api.mkSimpleController (Some 7%N)
                   (api.Header_Set "X-Request-Id" "42" freshResponse) getRequest)
       !! "X-Request-Id" = Some ["42"]
  /\ api.status (api.SimpleController_JSON (option N) marshalNumber
                   api.mkSimpleController (Some 7%N)
                   (api.Header_Set "X-Request-Id" "42" freshResponse) getRequest)
     = Some 200%Z.
Proof.
  split; [reflexivity|].
  destruct (JSON_success_touches_content_type_only (option N) marshalNumber
              api.mkSimpleController (Some 7%N)
              (api.Header_Set "X-Request-Id" "42" freshResponse) getRequest
              (bytes_of "7") eq_refl) as [Hhdr Hst].
  split; [|exact Hst].
  rewrite (Hhdr "X-Request-Id" ltac:(discriminate)). apply lookup_insert_eq.
Defined.

End MoreInstances.
